(** * Seasaw: the analysis-result model and the request lifecycle

  A shallow embedding of the TypeScript sources of the Seasaw front end
  (the page component [Home], [SearchBar], [ServiceGrid], [ScoreBadge],
  [NutritionLabel] and the server action [analyzeService]) together with
  the properties of the written specification that concern them.

  Conventions of the embedding.
  - A JavaScript string is a [string]: a sequence of 8-bit characters.
    Text outside ASCII is held in its UTF-8 encoding.
  - A JavaScript number is a [Number.t]: a finite value, kept as an exact
    rational in lowest terms, or one of the IEEE 754 special values
    [NaN], [+Infinity], [-Infinity].  Rounding and overflow of finite
    doubles are not modelled, and the two zeros are identified.
  - An [async] function is a value of [Actions.Async]: it either has
    returned, has thrown, or is suspended at an [await] on the network
    with its continuation. *)

From Stdlib Require Import ZArith QArith Qreduction Lia Lqa.
From stdpp Require Import base option list strings pretty gmap fin_maps.

#[local] Open Scope string_scope.

(* ===================================================================== *)
(** * JavaScript strings *)
(* ===================================================================== *)

Module JsString.

(** UTF-8 encoding of a code point below U+10000. *)
Definition utf8 (cp : N) : list Ascii.ascii :=
  if (cp <? 128)%N then [Ascii.ascii_of_N cp]
  else if (cp <? 2048)%N then
    [ Ascii.ascii_of_N (192 + cp / 64); Ascii.ascii_of_N (128 + cp mod 64) ]
  else
    [ Ascii.ascii_of_N (224 + cp / 4096);
      Ascii.ascii_of_N (128 + (cp / 64) mod 64);
      Ascii.ascii_of_N (128 + cp mod 64) ].

(** The code points ECMAScript's [trim] strips: WhiteSpace (TAB, VT, FF,
    ZWNBSP and the Unicode space separators) and LineTerminator (LF, CR,
    LS, PS). *)
Definition whiteSpaceCodePoints : list N :=
  [ 9; 10; 11; 12; 13; 32; 160; 5760;
    8192; 8193; 8194; 8195; 8196; 8197; 8198; 8199; 8200; 8201; 8202;
    8232; 8233; 8239; 8287; 12288; 65279 ]%N.

Definition whiteSpace : list (list Ascii.ascii) := utf8 <$> whiteSpaceCodePoints.

(** The rest of [l] after the prefix [p], if [l] starts with [p]. *)
Fixpoint stripPrefix (p l : list Ascii.ascii) : option (list Ascii.ascii) :=
  match p, l with
  | [], _ => Some l
  | a :: p', b :: l' => if Ascii.eqb a b then stripPrefix p' l' else None
  | _ :: _, [] => None
  end.

(** The rest of [l] after one leading white-space character, if any. *)
Fixpoint stripOne (ws : list (list Ascii.ascii)) (l : list Ascii.ascii) : option (list Ascii.ascii) :=
  match ws with
  | [] => None
  | w :: ws' =>
      match stripPrefix w l with
      | Some r => Some r
      | None => stripOne ws' l
      end
  end.

Fixpoint stripAll (fuel : nat) (ws : list (list Ascii.ascii)) (l : list Ascii.ascii)
  : list Ascii.ascii :=
  match fuel with
  | O => l
  | S fuel' =>
      match stripOne ws l with
      | Some r => stripAll fuel' ws r
      | None => l
      end
  end.

Definition trimStartChars (l : list Ascii.ascii) : list Ascii.ascii :=
  stripAll (length l) whiteSpace l.

Definition trimEndChars (l : list Ascii.ascii) : list Ascii.ascii :=
  rev (stripAll (length l) (@rev Ascii.ascii <$> whiteSpace) (rev l)).

(** [String.prototype.trimStart], [trimEnd] and [trim]. *)
Definition trimStart (s : string) : string :=
  String.string_of_list_ascii (trimStartChars (String.list_ascii_of_string s)).

Definition trimEnd (s : string) : string :=
  String.string_of_list_ascii (trimEndChars (String.list_ascii_of_string s)).

Definition trim (s : string) : string :=
  String.string_of_list_ascii
    (trimEndChars (trimStartChars (String.list_ascii_of_string s))).

(** ToBoolean on a string: the empty string is the only falsy one. *)
Definition truthy (s : string) : bool :=
  match s with EmptyString => false | String _ _ => true end.

End JsString.

(* ===================================================================== *)
(** * JavaScript numbers *)
(* ===================================================================== *)

Module Number.

Inductive t : Type :=
| Finite (q : Q)
| PosInfinity
| NegInfinity
| NaN.

(** A finite value is kept in lowest terms. *)
Definition fin (q : Q) : t := Finite (Qred q).

Definition zero : t := Finite 0.
Definition ofZ (z : Z) : t := Finite (inject_Z z).

Definition sgn (q : Q) : comparison := (Qnum q ?= 0)%Z.

(** The infinity of a given sign; a zero factor makes the product NaN. *)
Definition infinity (s : comparison) : t :=
  match s with
  | Gt => PosInfinity
  | Lt => NegInfinity
  | Eq => NaN
  end.

Definition Qltb (a b : Q) : bool := negb (Qle_bool b a).

(** [x + y] *)
Definition add (x y : t) : t :=
  match x, y with
  | NaN, _ | _, NaN => NaN
  | Finite a, Finite b => fin (a + b)
  | PosInfinity, NegInfinity | NegInfinity, PosInfinity => NaN
  | PosInfinity, _ | _, PosInfinity => PosInfinity
  | NegInfinity, _ | _, NegInfinity => NegInfinity
  end.

(** [x * y] *)
Definition mul (x y : t) : t :=
  match x, y with
  | NaN, _ | _, NaN => NaN
  | Finite a, Finite b => fin (a * b)
  | Finite a, PosInfinity | PosInfinity, Finite a => infinity (sgn a)
  | Finite a, NegInfinity | NegInfinity, Finite a => infinity (CompOpp (sgn a))
  | PosInfinity, PosInfinity | NegInfinity, NegInfinity => PosInfinity
  | PosInfinity, NegInfinity | NegInfinity, PosInfinity => NegInfinity
  end.

(** [x / y].  A finite value divided by zero is an infinity of the sign of
    the dividend, and [0 / 0] is [NaN]. *)
Definition div (x y : t) : t :=
  match x, y with
  | NaN, _ | _, NaN => NaN
  | Finite a, Finite b =>
      if Qeq_bool b 0 then infinity (sgn a) else fin (a / b)
  | Finite _, (PosInfinity | NegInfinity) => zero
  | PosInfinity, Finite b => if Qltb b 0 then NegInfinity else PosInfinity
  | NegInfinity, Finite b => if Qltb b 0 then PosInfinity else NegInfinity
  | (PosInfinity | NegInfinity), (PosInfinity | NegInfinity) => NaN
  end.

(** [x < y]; every comparison with [NaN] is false. *)
Definition ltb (x y : t) : bool :=
  match x, y with
  | NaN, _ | _, NaN => false
  | Finite a, Finite b => Qltb a b
  | NegInfinity, (Finite _ | PosInfinity) => true
  | Finite _, PosInfinity => true
  | _, _ => false
  end.

(** [x <= y] *)
Definition leb (x y : t) : bool :=
  match x, y with
  | NaN, _ | _, NaN => false
  | Finite a, Finite b => Qle_bool a b
  | NegInfinity, _ => true
  | _, PosInfinity => true
  | _, _ => false
  end.

(** [x > y] and [x >= y] *)
Definition gtb (x y : t) : bool := ltb y x.
Definition geb (x y : t) : bool := leb y x.

(** ToBoolean on a number: [0] and [NaN] are falsy. *)
Definition truthy (x : t) : bool :=
  match x with
  | Finite q => negb (Qeq_bool q 0)
  | NaN => false
  | _ => true
  end.

(** The value lies in the closed interval [[lo, hi]]. *)
Definition within (lo hi : Z) (x : t) : bool :=
  leb (ofZ lo) x && leb x (ofZ hi).

(** [-x] and [x - y] *)
Definition neg (x : t) : t :=
  match x with
  | Finite a => fin (- a)
  | PosInfinity => NegInfinity
  | NegInfinity => PosInfinity
  | NaN => NaN
  end.

Definition sub (x y : t) : t := add x (neg y).

End Number.

(* ===================================================================== *)
(** * JSON values, as [res.json()] delivers them *)
(* ===================================================================== *)

Module Json.

#[local] Set Warnings "-register-all".

Inductive value : Type :=
| Null
| Bool (b : bool)
| Num (n : Number.t)
| Str (s : string)
| Arr (items : list value)
| Obj (fields : list (string * value)).

(** ToBoolean. *)
Definition truthy (v : value) : bool :=
  match v with
  | Null => false
  | Bool b => b
  | Num n => Number.truthy n
  | Str s => JsString.truthy s
  | Arr _ | Obj _ => true
  end.

(** The own property [key] of a parsed object; of two members with the
    same name the later one wins. *)
Definition field (key : string) (fields : list (string * value)) : option value :=
  fold_left (fun found kv => if String.eqb kv.1 key then Some kv.2 else found)
            fields None.

End Json.

(* ===================================================================== *)
(** * types.ts *)
(* ===================================================================== *)

Module Types.

Record PolicyAttribute : Type := {
  id : string;
  label : string;
  value : string;
  severity : string;
  evidence : string;
  weight : Number.t;
  points_earned : Number.t;
}.

Record AnalyzeResponse : Type := {
  service_name : string;
  domain : string;
  terms_url : string;
  privacy_url : string;
  trust_score : Number.t;
  grade : string;
  analyzed_at : string;
  attributes : list PolicyAttribute;
  error : option string;
}.

End Types.

(* ===================================================================== *)
(** * components/ScoreBadge.tsx *)
(* ===================================================================== *)

Module ScoreBadge.

(** What the expression [colors[grade] || "#6b7280"] can evaluate to: a
    string, or a member that the object literal inherits from
    [Object.prototype] (a function, or the prototype object itself for
    [__proto__]). *)
Inductive Value : Type :=
| Text (s : string)
| Inherited (name : string).

(** The own properties of the literal [colors]. *)
Definition colors : gmap string string :=
  list_to_map
    [ ("A", "#22c55e"); ("B", "#84cc16"); ("C", "#eab308");
      ("D", "#f97316"); ("F", "#ef4444") ].

(** The property names of [Object.prototype], the prototype of every
    object literal. *)
Definition objectPrototype : list string :=
  [ "constructor"; "hasOwnProperty"; "isPrototypeOf";
    "propertyIsEnumerable"; "toLocaleString"; "toString"; "valueOf";
    "__proto__"; "__defineGetter__"; "__defineSetter__";
    "__lookupGetter__"; "__lookupSetter__" ].

(** [colors[grade]]: an own property first, then the prototype; [None] is
    [undefined]. *)
Definition get (grade : string) : option Value :=
  match colors !! grade with
  | Some c => Some (Text c)
  | None =>
      if bool_decide (grade ∈ objectPrototype) then Some (Inherited grade)
      else None
  end.

(** ToBoolean: functions and objects are truthy. *)
Definition truthy (v : Value) : bool :=
  match v with
  | Text s => JsString.truthy s
  | Inherited _ => true
  end.

Definition getGradeColor (grade : string) : Value :=
  match get grade with
  | Some v => if truthy v then v else Text "#6b7280"
  | None => Text "#6b7280"
  end.

End ScoreBadge.

(* ===================================================================== *)
(** * components/NutritionLabel.tsx *)
(* ===================================================================== *)

Module NutritionLabel.
Import Types.

Record Category : Type := {
  title : string;
  icon : string;
  ids : list string;
}.

(** Category grouping. *)
Definition CATEGORIES : list Category :=
  [ {| title := "Data Practices";
       icon := "🔐";
       ids := ["data_selling"; "data_sharing"; "third_party_tracking"] |};
    {| title := "Your Rights";
       icon := "👤";
       ids := ["account_deletion"; "class_action_waiver"; "arbitration_clause"] |};
    {| title := "Security & Retention";
       icon := "🛡️";
       ids := ["encryption"; "data_retention"; "government_requests"] |};
    {| title := "Legal Terms";
       icon := "📋";
       ids := ["unilateral_changes"; "liability_limitation"; "content_license"] |} ].

(** [SeverityDot]: the tooltip of the dot. *)
Definition SeverityDot (severity : string) : string :=
  if String.eqb severity "good" then "Good"
  else if String.eqb severity "bad" then "Concern"
  else "Unclear".

(** [SeverityIcon]: the glyph shown for a severity. *)
Definition SeverityIcon (severity : string) : string :=
  if String.eqb severity "good" then "✓"
  else if String.eqb severity "neutral" then "–"
  else if String.eqb severity "bad" then "!"
  else "?".

(** [SeverityBar]: the width of the fill, in percent, and its colour. *)
Record Bar : Type := {
  width : Number.t;
  background : string;
}.

Definition SeverityBar (score : Number.t) : Bar :=
  let color :=
    if Number.geb score (Number.ofZ 70) then "var(--good)"
    else if Number.geb score (Number.ofZ 40) then "var(--neutral)"
    else "var(--bad)" in
  {| width := score; background := color |}.

(** [AttributeRow]: the fill of the row's bar. *)
Definition fillPercent (attr : PolicyAttribute) : Number.t :=
  if Number.gtb (weight attr) Number.zero
  then Number.mul (Number.div (points_earned attr) (weight attr)) (Number.ofZ 100)
  else Number.zero.

(** What [AttributeRow] renders for an attribute (the evidence panel is
    local view state and is left out). *)
Record Row : Type := {
  row_attr : PolicyAttribute;
  row_icon : string;
  row_bar : Bar;
}.

Definition AttributeRow (attr : PolicyAttribute) : Row :=
  {| row_attr := attr;
     row_icon := SeverityIcon (severity attr);
     row_bar := SeverityBar (fillPercent attr) |}.

(** [ScoreBreakdown]: the two [reduce] sums and the width of the bar. *)
Definition totalPossible (data : AnalyzeResponse) : Number.t :=
  fold_left (fun sum a => Number.add sum (weight a)) (attributes data) Number.zero.

Definition totalEarned (data : AnalyzeResponse) : Number.t :=
  fold_left (fun sum a => Number.add sum (points_earned a)) (attributes data)
            Number.zero.

Definition ScoreBreakdown (data : AnalyzeResponse) : Number.t :=
  Number.mul (Number.div (totalEarned data) (totalPossible data)) (Number.ofZ 100).

(** [CategorySection]: nothing is rendered for an empty attribute list. *)
Record Section_ : Type := {
  sec_title : string;
  sec_icon : string;
  sec_dots : list string;
  sec_rows : list Row;
}.

Definition CategorySection (title icon : string) (attributes : list PolicyAttribute)
  : option Section_ :=
  if (length attributes =? 0)%nat then None
  else Some {| sec_title := title;
               sec_icon := icon;
               sec_dots := (fun a => SeverityDot (severity a)) <$> attributes;
               sec_rows := AttributeRow <$> attributes |}.

(** The summary counts of [NutritionLabel]. *)
Definition countSeverity (s : string) (data : AnalyzeResponse) : nat :=
  length (List.filter (fun a => String.eqb (severity a) s) (attributes data)).

Definition goodCount := countSeverity "good".
Definition badCount := countSeverity "bad".
Definition neutralCount := countSeverity "neutral".

(** [new Map(data.attributes.map((a) => [a.id, a]))]: the entries are set
    one after the other. *)
Definition attrMap (data : AnalyzeResponse) : gmap string PolicyAttribute :=
  fold_left (fun m a => <[id a := a]> m) (attributes data) ∅.

(** [cat.ids.map((id) => attrMap.get(id)).filter((a) => a !== undefined)] *)
Definition catAttrs (m : gmap string PolicyAttribute) (cat : Category)
  : list PolicyAttribute :=
  omap (fun i => m !! i) (ids cat).

(** The category sections of [NutritionLabel], in the order rendered. *)
Definition categories (data : AnalyzeResponse) : list Section_ :=
  let m := attrMap data in
  omap (fun cat => CategorySection (title cat) (icon cat) (catAttrs m cat))
       CATEGORIES.

(** *** Vocabulary for the properties of the display *)

(** The attribute id [i] occurs in the report. *)
Definition occurs (data : AnalyzeResponse) (i : string) : Prop :=
  i ∈ id <$> attributes data.

#[export] Instance occurs_dec data i : Decision (occurs data i).
Proof. unfold occurs. apply _. Defined.

(** The last attribute of the report with the id [i]. *)
Definition lastWithId (data : AnalyzeResponse) (i : string)
  : option PolicyAttribute :=
  last (filter (fun a => id a = i) (attributes data)).

(** The rows of all sections, top to bottom. *)
Definition allRows (data : AnalyzeResponse) : list Row :=
  concat (sec_rows <$> categories data).

(** The ids of the taxonomy, in declaration order. *)
Definition taxonomyIds : list string := concat (ids <$> CATEGORIES).

(** Title, icon and row ids of a section. *)
Definition outline (s : Section_) : string * string * list string :=
  (sec_title s, sec_icon s, (fun r => id (row_attr r)) <$> sec_rows s).

End NutritionLabel.

(* ===================================================================== *)
(** * actions.ts *)
(* ===================================================================== *)

Module Actions.

(** The [message] of an error object.  [new Error(v)] converts [v] to a
    string; for a [v] that is not a string the conversion is kept
    symbolic as [ToString v]. *)
Inductive Message : Type :=
| Text (s : string)
| ToString (v : Json.value).

(** Whether [ToString v] is the empty string: only an empty string, or an
    array of at most one element that itself prints as nothing, does. *)
Fixpoint printsEmpty (v : Json.value) : bool :=
  match v with
  | Json.Str s => negb (JsString.truthy s)
  | Json.Arr [] => true
  | Json.Arr [Json.Null] => true
  | Json.Arr [x] => printsEmpty x
  | _ => false
  end.

Definition shown (m : Message) : bool :=
  match m with
  | Text s => JsString.truthy s
  | ToString v => negb (printsEmpty v)
  end.

(** The values that are thrown. *)
Inductive Exn : Type :=
| Error (message : Message)
| TypeError (message : string)
| SyntaxError (message : string)
| DOMException (name message : string)
| NotAnError.

(** [new Error(x)] *)
Definition newError (x : Json.value) : Exn :=
  match x with
  | Json.Str s => Error (Text s)
  | v => Error (ToString v)
  end.

(** [err instanceof Error] *)
Definition instanceofError (err : Exn) : bool :=
  match err with
  | NotAnError => false
  | _ => true
  end.

(** [err.message] *)
Definition messageOf (err : Exn) : Message :=
  match err with
  | Error m => m
  | TypeError s | SyntaxError s | DOMException _ s => Text s
  | NotAnError => Text ""
  end.

(** The [fetch] request; [path] is relative to [BACKEND_URL]. *)
Record Request : Type := {
  path : string;
  method : string;
  contentType : string;
  body : Json.value;
  cache : string;
}.

(** The status line of a [Response]. *)
Record Response : Type := {
  status : N;
  statusText : string;
}.

(** [res.ok] *)
Definition ok (res : Response) : bool :=
  (200 <=? status res)%N && (status res <=? 299)%N.

(** An [async] computation: finished, or suspended at an [await] on
    [fetch(...)] or on [res.json()] with the rest of the function as a
    continuation of the way the awaited promise settles. *)
Inductive Async (A : Type) : Type :=
| Return (a : A)
| Throw (e : Exn)
| AwaitFetch (req : Request) (k : Exn + Response -> Async A)
| AwaitJson (k : Exn + Json.value -> Async A).

Arguments Return {A} a.
Arguments Throw {A} e.
Arguments AwaitFetch {A} req k.
Arguments AwaitJson {A} k.

Fixpoint bind {A B : Type} (p : Async A) (f : A -> Async B) : Async B :=
  match p with
  | Return a => f a
  | Throw e => Throw e
  | AwaitFetch req k => AwaitFetch req (fun r => bind (k r) f)
  | AwaitJson k => AwaitJson (fun r => bind (k r) f)
  end.

(** [try { p } catch (err) { handler err }] *)
Fixpoint tryCatch {A : Type} (p : Async A) (handler : Exn -> Async A) : Async A :=
  match p with
  | Return a => Return a
  | Throw e => handler e
  | AwaitFetch req k => AwaitFetch req (fun r => tryCatch (k r) handler)
  | AwaitJson k => AwaitJson (fun r => tryCatch (k r) handler)
  end.

Definition settled {A : Type} (r : Exn + A) : Async A :=
  match r with
  | inl e => Throw e
  | inr a => Return a
  end.

(** [await fetch(req)] and [await res.json()] *)
Definition fetch (req : Request) : Async Response := AwaitFetch req settled.
Definition json : Async Json.value := AwaitJson settled.

Notation "'let!' x ':=' p 'in' q" := (bind p (fun x => q))
  (at level 10, x name, p at level 100, q at level 200).

(** [body.detail]: reading a property of [null] throws, a value without
    that property gives [undefined] (here [None]). *)
Definition detail (body : Json.value) : Async (option Json.value) :=
  match body with
  | Json.Null => Throw (TypeError "Cannot read properties of null (reading 'detail')")
  | Json.Obj fields => Return (Json.field "detail" fields)
  | _ => Return None
  end.

(** [d || fallback] *)
Definition orElse (d : option Json.value) (fallback : string) : Json.value :=
  match d with
  | Some v => if Json.truthy v then v else Json.Str fallback
  | None => Json.Str fallback
  end.

(** What [controller.abort()] makes the pending [await] reject with. *)
Definition abortError : Exn :=
  DOMException "AbortError" "This operation was aborted".

Definition isAbortError (err : Exn) : bool :=
  match err with
  | DOMException name _ => String.eqb name "AbortError"
  | _ => false
  end.

(** [analyzeService].  The timer set before the [try] and cleared in the
    [finally] is part of the environment: while the call is suspended the
    timer may fire, and the pending [await] then rejects with
    [abortError]. *)
Definition analyzeService (query : string) : Async Json.value :=
  let trimmed := JsString.trim query in
  if negb (JsString.truthy trimmed) then
    Throw (Error (Text "Please enter a service name to analyze."))
  else
    tryCatch
      (let! res := fetch {| path := "/analyze";
                            method := "POST";
                            contentType := "application/json";
                            body := Json.Obj [("query", Json.Str trimmed)];
                            cache := "no-store" |} in
       if negb (ok res) then
         let! body := tryCatch json (fun _ => Return (Json.Obj [])) in
         let! d := detail body in
         Throw (newError
                  (orElse d ("Backend returned " +:+ pretty (status res)
                               +:+ ": " +:+ statusText res)))
       else
         let! data := json in
         Return data)
      (fun err =>
         if isAbortError err then
           Throw (Error (Text
             "Analysis timed out. The service might be taking too long to respond."))
         else Throw err).

End Actions.

(* ===================================================================== *)
(** * components/SearchBar.tsx and components/ServiceGrid.tsx *)
(* ===================================================================== *)

Module SearchBar.

(** [handleSubmit], for the text [query] in the input: what it does to the
    state [W] of the page through its [onSearch] prop. *)
Definition handleSubmit {W : Type} (onSearch : string -> W -> W)
    (isLoading : bool) (query : string) (w : W) : W :=
  if JsString.truthy (JsString.trim query) && negb isLoading
  then onSearch (JsString.trim query) w
  else w.

(** The [disabled] attribute of the submit button. *)
Definition disabled (isLoading : bool) (query : string) : bool :=
  negb (JsString.truthy (JsString.trim query)) || isLoading.

End SearchBar.

Module ServiceGrid.

Record Preset : Type := {
  name : string;
  icon : string;
  color : string;
}.

Definition SERVICE_PRESETS : list Preset :=
  [ {| name := "Netflix"; icon := "🎬"; color := "#E50914" |};
    {| name := "Spotify"; icon := "🎵"; color := "#1DB954" |};
    {| name := "Amazon"; icon := "📦"; color := "#FF9900" |};
    {| name := "Google"; icon := "🔍"; color := "#4285F4" |};
    {| name := "Instagram"; icon := "📸"; color := "#E4405F" |};
    {| name := "TikTok"; icon := "🎶"; color := "#010101" |};
    {| name := "Uber"; icon := "🚗"; color := "#000000" |};
    {| name := "Discord"; icon := "💬"; color := "#5865F2" |} ].

(** A click on the card of the [n]-th preset; a disabled button does not
    fire its handler. *)
Definition click {W : Type} (onSelect : string -> W -> W)
    (isLoading : bool) (n : nat) (w : W) : W :=
  match SERVICE_PRESETS !! n with
  | Some svc => if isLoading then w else onSelect (name svc) w
  | None => w
  end.

End ServiceGrid.

(* ===================================================================== *)
(** * page.tsx *)
(* ===================================================================== *)

Module Home.
Import Actions.

(** The three [useState] cells of [Home]. *)
Record State : Type := {
  result : option Json.value;
  error : option Message;
  activeQuery : string;
}.

Definition setResult (data : option Json.value) (s : State) : State :=
  {| result := data; error := error s; activeQuery := activeQuery s |}.
Definition setError (message : option Message) (s : State) : State :=
  {| result := result s; error := message; activeQuery := activeQuery s |}.
Definition setActiveQuery (query : string) (s : State) : State :=
  {| result := result s; error := error s; activeQuery := query |}.

(** The page and its surroundings: the state cells, the async actions
    handed to [startTransition] that have not finished (each suspended at
    an [await]), and the requests sent to the backend so far. *)
Record World : Type := {
  home : State;
  transitions : list (Async (State -> State));
  requests : list Request;
}.

Definition init : World :=
  {| home := {| result := None; error := None; activeQuery := "" |};
     transitions := [];
     requests := [] |}.

(** [isPending] of [useTransition]: true from [startTransition] until the
    async action handed to it has finished. *)
Definition isPending (w : World) : bool :=
  match transitions w with
  | [] => false
  | _ :: _ => true
  end.

(** The async action of [handleSearch]; it ends in the state update it
    performs. *)
Definition action (query : string) : Async (State -> State) :=
  tryCatch
    (let! data := analyzeService query in
     Return (setResult (Some data)))
    (fun err =>
       let message :=
         if instanceofError err then messageOf err
         else Text "An unexpected error occurred." in
       Return (setError (Some message))).

(** A newly started action has run up to [p]. *)
Definition started (p : Async (State -> State)) (w : World) : World :=
  match p with
  | Return update =>
      {| home := update (home w); transitions := transitions w;
         requests := requests w |}
  | Throw _ => w
  | AwaitFetch req _ =>
      {| home := home w; transitions := transitions w ++ [p];
         requests := requests w ++ [req] |}
  | AwaitJson _ =>
      {| home := home w; transitions := transitions w ++ [p];
         requests := requests w |}
  end.

(** The action at index [i] was resumed and has run up to [p]. *)
Definition resumed (i : nat) (p : Async (State -> State)) (w : World) : World :=
  match p with
  | Return update =>
      {| home := update (home w); transitions := delete i (transitions w);
         requests := requests w |}
  | Throw _ =>
      {| home := home w; transitions := delete i (transitions w);
         requests := requests w |}
  | AwaitFetch req _ =>
      {| home := home w; transitions := <[i := p]> (transitions w);
         requests := requests w ++ [req] |}
  | AwaitJson _ =>
      {| home := home w; transitions := <[i := p]> (transitions w);
         requests := requests w |}
  end.

Definition handleSearch (query : string) (w : World) : World :=
  started (action query)
    {| home := setActiveQuery query (setResult None (setError None (home w)));
       transitions := transitions w;
       requests := requests w |}.

(** ToBoolean of [result] and [error]; [null] is falsy. *)
Definition hasResult (s : State) : bool :=
  match result s with
  | Some v => Json.truthy v
  | None => false
  end.


(** The conditional blocks of the page. *)
Definition showsGrid (w : World) : bool :=
  negb (hasResult (home w)) && negb (isPending w).
Definition showsResult (w : World) : bool :=
  hasResult (home w) && negb (isPending w).

(** The onClick of the button under the report. *)
Definition analyzeAnother (w : World) : World :=
  {| home := setActiveQuery "" (setError None (setResult None (home w)));
     transitions := transitions w;
     requests := requests w |}.

(** What can happen to the page. *)
Inductive Event : Type :=
| Submit (text : string)
| Select (n : nat)
| Reset
| FetchSettles (i : nat) (r : Exn + Response)
| JsonSettles (i : nat) (r : Exn + Json.value)
| Timeout (i : nat).

Definition step (w : World) (e : Event) : World :=
  match e with
  | Submit text => SearchBar.handleSubmit handleSearch (isPending w) text w
  | Select n =>
      if showsGrid w then ServiceGrid.click handleSearch (isPending w) n w
      else w
  | Reset => if showsResult w then analyzeAnother w else w
  | FetchSettles i r =>
      match transitions w !! i with
      | Some (AwaitFetch _ k) => resumed i (k r) w
      | _ => w
      end
  | JsonSettles i r =>
      match transitions w !! i with
      | Some (AwaitJson k) => resumed i (k r) w
      | _ => w
      end
  | Timeout i =>
      match transitions w !! i with
      | Some (AwaitFetch _ k) => resumed i (k (inl abortError)) w
      | Some (AwaitJson k) => resumed i (k (inl abortError)) w
      | _ => w
      end
  end.

Definition run (w : World) (events : list Event) : World :=
  fold_left step events w.

(** The lifecycle state the page displays. *)
Inductive Lifecycle : Type :=
| Idle
| Pending
| Success (report : Json.value)
| Failure (message : Message).

Definition lifecycle (w : World) : Lifecycle :=
  let settled :=
    match result (home w) with
    | Some v => if Json.truthy v then Success v else Idle
    | None => Idle
    end in
  if isPending w then Pending
  else
    match error (home w) with
    | Some m => if shown m then Failure m else settled
    | None => settled
    end.

(** *** Vocabulary for the properties of the lifecycle *)

(** The request [analyzeService] sends for a query. *)
Definition requestFor (query : string) : Request :=
  {| path := "/analyze";
     method := "POST";
     contentType := "application/json";
     body := Json.Obj [("query", Json.Str (JsString.trim query))];
     cache := "no-store" |}.

Definition validationMessage : Message :=
  Text "Please enter a service name to analyze.".

Definition timedOut : Message :=
  Text "Analysis timed out. The service might be taking too long to respond.".

Definition statusLine (res : Response) : Message :=
  Text ("Backend returned " +:+ pretty (status res) +:+ ": " +:+ statusText res).

(** What is left of the async action of [handleSearch] at any point of its
    run: it is suspended, or it has ended in storing a result or in storing
    an error. *)
Inductive Residual : Async (State -> State) -> Prop :=
| residual_result (data : Json.value) :
    Residual (Return (setResult (Some data)))
| residual_error (message : Message) :
    Residual (Return (setError (Some message)))
| residual_fetch (req : Request) (k : Exn + Response -> Async (State -> State)) :
    (forall r, Residual (k r)) -> Residual (AwaitFetch req k)
| residual_json (k : Exn + Json.value -> Async (State -> State)) :
    (forall r, Residual (k r)) -> Residual (AwaitJson k).

(** The page shows one thing at a time: nothing is in flight and at most
    one of result and error is set, or one call is in flight and neither is
    set. *)
Definition Settled (w : World) : Prop :=
  transitions w = []
  /\ (result (home w) = None \/ error (home w) = None).

Definition Waiting (w : World) : Prop :=
  (exists p, transitions w = [p] /\ Residual p)
  /\ result (home w) = None /\ error (home w) = None.

(** A JSON value other than [null] that is no object: reading [detail]
    from it gives [undefined]. *)
Definition plain (v : Json.value) : bool :=
  match v with
  | Json.Null | Json.Obj _ => false
  | _ => true
  end.

End Home.

(* ===================================================================== *)
(** * components/ScoreBadge.tsx: the progress ring *)
(* ===================================================================== *)

Module ScoreRing.

(** [Math.PI]: the double nearest to pi, as the rational it is. *)
Definition PI : Number.t :=
  Number.Finite (884279719003555 # 281474976710656).

(** [2 * Math.PI * 54] *)
Definition circumference : Number.t :=
  Number.mul (Number.mul (Number.ofZ 2) PI) (Number.ofZ 54).

(** [circumference - (score / 100) * circumference]: the length of the
    ring that is left blank ([strokeDashoffset]). *)
Definition offset (score : Number.t) : Number.t :=
  Number.sub circumference
    (Number.mul (Number.div score (Number.ofZ 100)) circumference).

End ScoreRing.

(* ===================================================================== *)
(** * components/Navbar.tsx *)
(* ===================================================================== *)

Module Navbar.

(** The state cell [hidden], the ref [lastScrollY], the flag [ticking] of
    the effect, and the number of animation-frame callbacks requested and
    not yet run. *)
Record State : Type := {
  hidden : bool;
  lastScrollY : Number.t;
  ticking : bool;
  frames : nat;
}.

Definition init : State :=
  {| hidden := false; lastScrollY := Number.zero; ticking := false;
     frames := 0 |}.

(** The listener [onScroll]. *)
Definition onScroll (s : State) : State :=
  if ticking s then s
  else {| hidden := hidden s; lastScrollY := lastScrollY s; ticking := true;
          frames := S (frames s) |}.

(** The callback handed to [requestAnimationFrame], run when
    [window.scrollY] is [y]. *)
Definition onFrame (y : Number.t) (s : State) : State :=
  let hidden' :=
    if Number.gtb y (Number.ofZ 60) then
      if Number.gtb (Number.sub y (lastScrollY s)) (Number.ofZ 8) then true
      else if Number.gtb (Number.sub (lastScrollY s) y) (Number.ofZ 8) then false
      else hidden s
    else false in
  {| hidden := hidden'; lastScrollY := y; ticking := false;
     frames := pred (frames s) |}.

(** What happens to the bar: a scroll event, or the browser running a
    requested frame. *)
Inductive Event : Type :=
| Scroll
| Frame (y : Number.t).

Definition step (s : State) (e : Event) : State :=
  match e with
  | Scroll => onScroll s
  | Frame y =>
      match frames s with
      | O => s
      | S _ => onFrame y s
      end
  end.

Definition run (s : State) (events : list Event) : State :=
  fold_left step events s.

(** The class of the [nav] element. *)
Definition className (s : State) : string :=
  "navbar " +:+ (if hidden s then "navbar-hidden" else "").

End Navbar.

(* ===================================================================== *)
(** * Vocabulary for the properties of the requests *)
(* ===================================================================== *)

Module Protocol.
Import Actions.

(** An async computation that sends nothing any more. *)
Inductive Quiet {A : Type} : Async A -> Prop :=
| quiet_return (a : A) : Quiet (Return a)
| quiet_throw (e : Exn) : Quiet (Throw e)
| quiet_json (k : Exn + Json.value -> Async A) :
    (forall r, Quiet (k r)) -> Quiet (AwaitJson k).

(** An async computation that has sent its one request, or sends none. *)
Definition SentOnce {A : Type} (p : Async A) : Prop :=
  Quiet p \/ exists req k, p = AwaitFetch req k /\ forall r, Quiet (k r).

(** A request as the backend expects it: a POST of [{query: text}] to
    [/analyze], with a text that is not empty and has no white space at
    either end. *)
Definition WellFormed (req : Request) : Prop :=
  path req = "/analyze" /\ method req = "POST"
  /\ contentType req = "application/json" /\ cache req = "no-store"
  /\ exists text, body req = Json.Obj [("query", Json.Str text)]
                  /\ text <> "" /\ JsString.trim text = text.

(** A submit of the search bar or a click on a preset that the page
    accepts in the world [w]. *)
Definition accepted (w : Home.World) (e : Home.Event) : bool :=
  match e with
  | Home.Submit text =>
      JsString.truthy (JsString.trim text) && negb (Home.isPending w)
  | Home.Select n =>
      Home.showsGrid w && bool_decide (is_Some (ServiceGrid.SERVICE_PRESETS !! n))
  | _ => false
  end.

(** The number of accepted submissions in a run of events. *)
Fixpoint submissions (w : Home.World) (events : list Home.Event) : nat :=
  match events with
  | [] => 0
  | e :: events' =>
      (if accepted w e then 1 else 0) + submissions (Home.step w e) events'
  end.

End Protocol.

(* ===================================================================== *)
(** * Vocabulary for the properties of the scores *)
(* ===================================================================== *)

Module Scoring.
Import Types.


(** The severity is one of the three the type allows. *)
Definition knownSeverity (a : PolicyAttribute) : Prop :=
  severity a ∈ ["good"; "neutral"; "bad"].

End Scoring.

(* ===================================================================== *)
(** * Sample data *)
(* ===================================================================== *)

Module Samples.
Import Types.

(** An attribute with the given id, severity, weight and points. *)
Definition attribute (i sev : string) (w p : Q) : PolicyAttribute :=
  {| id := i; label := i; value := ""; severity := sev; evidence := "";
     weight := Number.Finite w; points_earned := Number.Finite p |}.

(** A report with the given attributes. *)
Definition report (attrs : list PolicyAttribute) : AnalyzeResponse :=
  {| service_name := "Netflix"; domain := "netflix.com";
     terms_url := ""; privacy_url := "";
     trust_score := Number.ofZ 72; grade := "B";
     analyzed_at := "2025-01-01T00:00:00Z";
     attributes := attrs; error := None |}.

(** A report whose ids are one per category, in no particular order. *)
Definition onePerCategory : AnalyzeResponse :=
  report [ attribute "unilateral_changes" "bad" 8 2;
           attribute "encryption" "good" 10 10;
           attribute "data_selling" "neutral" 12 6;
           attribute "account_deletion" "good" 6 6 ].

(** The same report with its attributes in the opposite order. *)
Definition onePerCategoryReversed : AnalyzeResponse :=
  report [ attribute "account_deletion" "good" 6 6;
           attribute "data_selling" "neutral" 12 6;
           attribute "encryption" "good" 10 10;
           attribute "unilateral_changes" "bad" 8 2 ].

(** A report in which the id [data_selling] occurs twice. *)
Definition repeated : AnalyzeResponse :=
  report [ attribute "data_selling" "bad" 12 0;
           attribute "encryption" "good" 10 10;
           attribute "data_selling" "good" 12 12 ].

(** Responses of the backend. *)
Definition found : Json.value :=
  Json.Obj [("service_name", Json.Str "Netflix"); ("grade", Json.Str "B")].
Definition other : Json.value :=
  Json.Obj [("service_name", Json.Str "Spotify"); ("grade", Json.Str "C")].

Definition status200 : Actions.Response :=
  {| Actions.status := 200; Actions.statusText := "OK" |}.
Definition status500 : Actions.Response :=
  {| Actions.status := 500; Actions.statusText := "Internal Server Error" |}.
Definition status503 : Actions.Response :=
  {| Actions.status := 503; Actions.statusText := "Service Unavailable" |}.

(** [handleSearch] called a second time while the first call is pending. *)
Definition twoSearches : Home.World :=
  Home.handleSearch "Spotify" (Home.handleSearch "Netflix" Home.init).

End Samples.

(* ===================================================================== *)
(** * Properties *)
(* ===================================================================== *)

(** ** Strings *)

Section StringFacts.
Import JsString.
#[local] Open Scope list_scope.

Lemma stripPrefix_Some (p l r : list Ascii.ascii) :
  stripPrefix p l = Some r -> l = p ++ r.
Proof.
  revert l. induction p as [|a p IH]; intros [|b l]; cbn; try congruence.
  destruct (Ascii.eqb a b) eqn:E; [|discriminate].
  apply Ascii.eqb_eq in E. subst b. intros H. f_equal. apply IH, H.
Qed.

Lemma stripPrefix_app (p r : list Ascii.ascii) : stripPrefix p (p ++ r) = Some r.
Proof.
  induction p as [|a p IH]; cbn; [reflexivity|].
  rewrite Ascii.eqb_refl. exact IH.
Qed.

Lemma stripOne_Some (ws : list (list Ascii.ascii)) (l r : list Ascii.ascii) :
  stripOne ws l = Some r -> exists w, w ∈ ws /\ l = w ++ r.
Proof.
  induction ws as [|w ws IH]; cbn; [discriminate|].
  destruct (stripPrefix w l) as [r'|] eqn:E.
  - intros [= ->]. exists w. split; [left|apply stripPrefix_Some, E].
  - intros H. destruct (IH H) as (w' & Hw & Hl). exists w'. split; [right|]; assumption.
Qed.

Lemma stripOne_None (ws : list (list Ascii.ascii)) (l w : list Ascii.ascii) :
  stripOne ws l = None -> w ∈ ws -> stripPrefix w l = None.
Proof.
  induction ws as [|w' ws IH]; cbn; intros H Hw.
  - inversion Hw.
  - destruct (stripPrefix w' l) eqn:E; [discriminate|].
    apply elem_of_cons in Hw as [->|Hw]; [exact E|apply IH; assumption].
Qed.

(** A text without leading white space keeps none when cut at the end. *)
Lemma stripOne_None_prefix (ws : list (list Ascii.ascii)) (a t : list Ascii.ascii) :
  stripOne ws (a ++ t) = None -> stripOne ws a = None.
Proof.
  intros H. destruct (stripOne ws a) as [r|] eqn:E; [|reflexivity].
  apply stripOne_Some in E as (w & Hw & ->).
  pose proof (stripOne_None ws _ w H Hw) as Hn.
  rewrite <- app_assoc, stripPrefix_app in Hn. discriminate.
Qed.

Lemma stripAll_fixed (n : nat) (ws : list (list Ascii.ascii)) (l : list Ascii.ascii) :
  stripOne ws l = None -> stripAll n ws l = l.
Proof. intros H. destruct n; cbn; [|rewrite H]; reflexivity. Qed.

Lemma stripAll_suffix (n : nat) (ws : list (list Ascii.ascii)) (l : list Ascii.ascii) :
  exists p, l = p ++ stripAll n ws l.
Proof.
  revert l. induction n as [|n IH]; intros l; cbn; [exists []; reflexivity|].
  destruct (stripOne ws l) as [r|] eqn:E; [|exists []; reflexivity].
  apply stripOne_Some in E as (w & _ & ->).
  destruct (IH r) as [p Hp]. exists (w ++ p).
  rewrite <- app_assoc, <- Hp. reflexivity.
Qed.

Lemma stripAll_done (n : nat) (ws : list (list Ascii.ascii)) (l : list Ascii.ascii) :
  Forall (fun w => w <> []) ws -> (length l <= n)%nat ->
  stripOne ws (stripAll n ws l) = None.
Proof.
  intros Hws. revert l. induction n as [|n IH]; intros l Hl; cbn.
  - destruct l; [|cbn in Hl; lia].
    destruct (stripOne ws []) as [r|] eqn:E; [|reflexivity].
    apply stripOne_Some in E as (w & Hw & Hnil).
    rewrite Forall_forall in Hws. destruct w; [|discriminate].
    exfalso. exact (Hws _ Hw eq_refl).
  - destruct (stripOne ws l) as [r|] eqn:E; [|exact E].
    apply IH. apply stripOne_Some in E as (w & Hw & ->).
    rewrite Forall_forall in Hws. specialize (Hws _ Hw).
    rewrite length_app in Hl. destruct w; [congruence|]. cbn in Hl. lia.
Qed.

Lemma whiteSpace_nonempty :
  Forall (fun w => w <> []) whiteSpace
  /\ Forall (fun w => w <> []) (@rev Ascii.ascii <$> whiteSpace).
Proof.
  split.
  - apply (bool_decide_unpack (Forall (fun w => w <> []) whiteSpace)).
    vm_compute. exact I.
  - apply (bool_decide_unpack
             (Forall (fun w => w <> []) (@rev Ascii.ascii <$> whiteSpace))).
    vm_compute. exact I.
Qed.

Lemma trimChars_idempotent (l : list Ascii.ascii) :
  trimEndChars (trimStartChars (trimEndChars (trimStartChars l)))
  = trimEndChars (trimStartChars l).
Proof.
  destruct whiteSpace_nonempty as [Hws Hrev].
  set (a := trimStartChars l).
  assert (Ha : stripOne whiteSpace a = None)
    by (apply stripAll_done; [exact Hws|reflexivity]).
  assert (Hb : stripOne (@rev Ascii.ascii <$> whiteSpace) (rev (trimEndChars a)) = None).
  { unfold trimEndChars. rewrite rev_involutive.
    apply stripAll_done; [exact Hrev|]. rewrite length_rev. reflexivity. }
  assert (Hp : exists t, a = trimEndChars a ++ t).
  { unfold trimEndChars.
    destruct (stripAll_suffix (length a) (@rev Ascii.ascii <$> whiteSpace) (rev a))
      as [p Hp].
    exists (rev p). rewrite <- rev_app_distr, <- Hp, rev_involutive. reflexivity. }
  destruct Hp as [t Ht].
  assert (Hc : trimStartChars (trimEndChars a) = trimEndChars a).
  { apply stripAll_fixed. apply (stripOne_None_prefix _ _ t).
    rewrite <- Ht. exact Ha. }
  rewrite Hc. unfold trimEndChars at 1.
  rewrite (stripAll_fixed _ _ _ Hb). apply rev_involutive.
Qed.

(** Trimming a trimmed text changes nothing. *)
Lemma trim_idempotent (s : string) : trim (trim s) = trim s.
Proof.
  unfold trim. rewrite String.list_ascii_of_string_of_list_ascii.
  rewrite trimChars_idempotent. reflexivity.
Qed.

End StringFacts.

(** ** Numbers *)

Section NumberFacts.
Import Number.
#[local] Open Scope Q_scope.

Lemma Qltb_lt (a b : Q) : Qltb a b = true <-> a < b.
Proof.
  unfold Qltb. rewrite negb_true_iff. split.
  - intros H. apply Qnot_le_lt. intros Hle.
    apply Qle_bool_iff in Hle. congruence.
  - intros H. destruct (Qle_bool b a) eqn:E; [|reflexivity].
    apply Qle_bool_iff in E. exfalso. exact (Qlt_not_le _ _ H E).
Qed.

Lemma Qltb_ge (a b : Q) : Qltb a b = false <-> b <= a.
Proof.
  unfold Qltb. rewrite negb_false_iff. apply Qle_bool_iff.
Qed.

Lemma geb_finite (a : Q) (z : Z) :
  geb (Finite a) (ofZ z) = true <-> inject_Z z <= a.
Proof. unfold geb, leb, ofZ. apply Qle_bool_iff. Qed.

Lemma gtb_zero_finite (w : Q) : gtb (Finite w) zero = true <-> 0 < w.
Proof. unfold gtb, ltb, zero. apply Qltb_lt. Qed.

Lemma within_finite (lo hi : Z) (q : Q) :
  within lo hi (Finite q) = true <-> inject_Z lo <= q /\ q <= inject_Z hi.
Proof.
  unfold within, leb, ofZ. rewrite andb_true_iff, !Qle_bool_iff. reflexivity.
Qed.

(** The quotient of two finite numbers with a positive divisor, in
    percent. *)
Lemma percent_finite (p w : Q) :
  0 < w ->
  exists f, mul (div (Finite p) (Finite w)) (ofZ 100) = Finite f
            /\ f == p / w * 100.
Proof.
  intros Hw. unfold div, mul, ofZ, fin.
  destruct (Qeq_bool w 0) eqn:E.
  - apply Qeq_bool_iff in E. rewrite E in Hw. exfalso. exact (Qlt_irrefl _ Hw).
  - eexists. split; [reflexivity|].
    rewrite !Qred_correct. reflexivity.
Qed.

Lemma percent_range (p w : Q) :
  0 < w -> 0 <= p -> p <= w -> 0 <= p / w * 100 /\ p / w * 100 <= 100.
Proof.
  intros Hw Hp Hpw. split.
  - apply Qmult_le_0_compat; [|discriminate].
    apply Qle_shift_div_l; [exact Hw|]. rewrite Qmult_0_l. exact Hp.
  - assert (H1 : p / w <= 1).
    { apply Qle_shift_div_r; [exact Hw|]. rewrite Qmult_1_l. exact Hpw. }
    apply Qle_trans with (1 * 100); [|discriminate].
    apply Qmult_le_compat_r; [exact H1|discriminate].
Qed.

End NumberFacts.

(** ** Score aggregation *)

Section Aggregation.
Import Types NutritionLabel.

(** The guard of [AttributeRow]: a weight that is not greater than zero
    (zero, negative or [NaN]) gives an empty bar. *)
Lemma fillPercent_guard (attr : PolicyAttribute) :
  Number.gtb (weight attr) Number.zero = false ->
  fillPercent attr = Number.zero.
Proof. intros H. unfold fillPercent. rewrite H. reflexivity. Qed.

(** C4, counterexample: an attribute with 15 points earned out of a weight
    of 10 gets a fill of 150 percent, outside [0,100]; nothing clamps
    it. *)
Lemma fillPercent_not_clamped :
  fillPercent (Samples.attribute "encryption" "good" 10 15) = Number.Finite 150
  /\ Number.within 0 100
       (fillPercent (Samples.attribute "encryption" "good" 10 15)) = false.
Proof. split; reflexivity. Qed.

(** C4, as amended: for every attribute whose points and weight are finite
    and satisfy [0 <= points_earned <= weight], the fill percent is
    [points_earned / weight * 100] when the weight is positive and 0 when
    the weight is 0, and it lies in [0,100]. *)
Theorem fillPercent_of_valid_attribute (attr : PolicyAttribute) (p w : Q) :
  points_earned attr = Number.Finite p ->
  weight attr = Number.Finite w ->
  (0 <= p)%Q -> (p <= w)%Q ->
  exists f : Q,
    fillPercent attr = Number.Finite f
    /\ ((0 < w)%Q -> (f == p / w * 100)%Q)
    /\ ((w == 0)%Q -> (f == 0)%Q)
    /\ (0 <= f)%Q /\ (f <= 100)%Q
    /\ Number.within 0 100 (fillPercent attr) = true.
Proof.
  intros Hp Hw H0 Hpw. unfold fillPercent. rewrite Hp, Hw.
  destruct (Qlt_le_dec 0 w) as [Hpos|Hle].
  - rewrite (proj2 (gtb_zero_finite w) Hpos).
    destruct (percent_finite p w Hpos) as (f & -> & Hf).
    destruct (percent_range p w Hpos H0 Hpw) as [Hlo Hhi].
    exists f. split; [reflexivity|]. split; [intros _; exact Hf|].
    split.
    { intros Hz. rewrite Hz in Hpos. exfalso. exact (Qlt_irrefl _ Hpos). }
    rewrite <- Hf in Hlo, Hhi.
    split; [exact Hlo|]. split; [exact Hhi|].
    apply within_finite. split; assumption.
  - assert (Hg : Number.gtb (Number.Finite w) Number.zero = false).
    { unfold Number.gtb, Number.ltb, Number.zero. apply Qltb_ge. exact Hle. }
    rewrite Hg. exists 0%Q. split; [reflexivity|]. split.
    { intros Hpos. exfalso. exact (Qlt_not_le _ _ Hpos Hle). }
    split; [reflexivity|]. split; [discriminate|]. split; [discriminate|].
    reflexivity.
Qed.

Lemma fillPercent_of_valid_attribute_witness :
  exists f : Q,
    fillPercent (Samples.attribute "encryption" "good" 10 5) = Number.Finite f
    /\ ((0 < 10)%Q -> (f == 5 / 10 * 100)%Q)
    /\ ((10 == 0)%Q -> (f == 0)%Q)
    /\ (0 <= f)%Q /\ (f <= 100)%Q
    /\ Number.within 0 100
         (fillPercent (Samples.attribute "encryption" "good" 10 5)) = true.
Proof.
  apply (fillPercent_of_valid_attribute
           (Samples.attribute "encryption" "good" 10 5) 5 10).
  - reflexivity.
  - reflexivity.
  - discriminate.
  - discriminate.
Defined.

(** Without a guard, a total weight of zero never gives a fill of 0: the
    width is [NaN] or an infinity. *)
Lemma ScoreBreakdown_zero_total (data : AnalyzeResponse) (q : Q) :
  totalPossible data = Number.Finite q -> (q == 0)%Q ->
  ScoreBreakdown data = Number.NaN
  \/ ScoreBreakdown data = Number.PosInfinity
  \/ ScoreBreakdown data = Number.NegInfinity.
Proof.
  intros Ht Hq. unfold ScoreBreakdown. rewrite Ht.
  destruct (totalEarned data) as [e| | |]; simpl.
  - rewrite (proj2 (Qeq_bool_iff q 0) Hq).
    unfold Number.sgn. destruct (Qnum e ?= 0)%Z; simpl; auto.
  - assert (Number.Qltb q 0 = false) as ->.
    { apply Qltb_ge. rewrite Hq. discriminate. }
    simpl. auto.
  - assert (Number.Qltb q 0 = false) as ->.
    { apply Qltb_ge. rewrite Hq. discriminate. }
    simpl. auto.
  - auto.
Qed.

(** C1: the aggregate bar of [ScoreBreakdown] has no zero guard.  For a
    report without attributes, and for one whose attributes all weigh 0,
    [totalPossible] is 0 and the width is [NaN], not 0; the row bar of
    [AttributeRow] on the same data is 0. *)
Theorem ScoreBreakdown_unguarded :
  totalPossible (Samples.report []) = Number.zero
  /\ ScoreBreakdown (Samples.report []) = Number.NaN
  /\ ScoreBreakdown
       (Samples.report [Samples.attribute "encryption" "neutral" 0 0])
     = Number.NaN
  /\ fillPercent (Samples.attribute "encryption" "neutral" 0 0) = Number.zero.
Proof. repeat split; reflexivity. Qed.

(** The width of the aggregate bar when the total weight is positive. *)
Lemma ScoreBreakdown_positive_total (data : AnalyzeResponse) (e t : Q) :
  totalEarned data = Number.Finite e ->
  totalPossible data = Number.Finite t ->
  (0 < t)%Q ->
  exists f : Q, ScoreBreakdown data = Number.Finite f /\ (f == e / t * 100)%Q.
Proof.
  intros He Ht Hpos. unfold ScoreBreakdown. rewrite He, Ht.
  apply percent_finite. exact Hpos.
Qed.

(** C9: the colour of a numeric bar follows its score alone: good from 70
    up, neutral from 40 up to (not including) 70, bad below 40; an
    attribute's bar is computed from its weight and points only, so two
    attributes that agree on those have the same bar whatever their
    severity. *)
Theorem SeverityBar_color :
  (forall score : Q,
      ((70 <= score)%Q ->
       background (SeverityBar (Number.Finite score)) = "var(--good)")
      /\ ((40 <= score)%Q -> (score < 70)%Q ->
          background (SeverityBar (Number.Finite score)) = "var(--neutral)")
      /\ ((score < 40)%Q ->
          background (SeverityBar (Number.Finite score)) = "var(--bad)"))
  /\ background (SeverityBar Number.PosInfinity) = "var(--good)"
  /\ background (SeverityBar Number.NegInfinity) = "var(--bad)"
  /\ (forall a b : PolicyAttribute,
        weight a = weight b -> points_earned a = points_earned b ->
        row_bar (AttributeRow a) = row_bar (AttributeRow b)
        /\ row_bar (AttributeRow a) = SeverityBar (fillPercent a)).
Proof.
  split; [|split; [reflexivity|split; [reflexivity|]]].
  - intros score. unfold SeverityBar. cbn [background].
    split; [|split].
    + intros H. rewrite (proj2 (geb_finite score 70) H). reflexivity.
    + intros H40 H70.
      destruct (Number.geb (Number.Finite score) (Number.ofZ 70)) eqn:E.
      * apply geb_finite in E. exfalso. exact (Qlt_not_le _ _ H70 E).
      * rewrite (proj2 (geb_finite score 40) H40). reflexivity.
    + intros H40.
      destruct (Number.geb (Number.Finite score) (Number.ofZ 70)) eqn:E.
      { apply geb_finite in E. exfalso.
        apply (Qlt_not_le _ _ H40). apply Qle_trans with 70%Q; [discriminate|exact E]. }
      destruct (Number.geb (Number.Finite score) (Number.ofZ 40)) eqn:E'.
      { apply geb_finite in E'. exfalso. exact (Qlt_not_le _ _ H40 E'). }
      reflexivity.
  - intros a b Hw Hp. unfold AttributeRow, fillPercent. cbn [row_bar].
    rewrite Hw, Hp. split; reflexivity.
Qed.

Lemma SeverityBar_color_witness :
  background (SeverityBar (Number.Finite 85)) = "var(--good)"
  /\ background (SeverityBar (Number.Finite 55)) = "var(--neutral)"
  /\ background (SeverityBar (Number.Finite (25 # 2))) = "var(--bad)"
  /\ row_bar (AttributeRow (Samples.attribute "encryption" "bad" 10 9))
     = row_bar (AttributeRow (Samples.attribute "encryption" "good" 10 9)).
Proof.
  destruct SeverityBar_color as (Hc & _ & _ & Hs).
  split; [|split; [|split]].
  - apply (proj1 (Hc 85%Q)). discriminate.
  - apply (proj1 (proj2 (Hc 55%Q))); [discriminate|reflexivity].
  - apply (proj2 (proj2 (Hc (25 # 2)%Q))). reflexivity.
  - apply (Hs (Samples.attribute "encryption" "bad" 10 9)
              (Samples.attribute "encryption" "good" 10 9)); reflexivity.
Defined.

End Aggregation.

(** ** Grade colours *)

Section GradeColor.
Import ScoreBadge.

Lemma colors_other (grade : string) :
  grade ∉ ["A"; "B"; "C"; "D"; "F"] -> colors !! grade = None.
Proof.
  intros H. unfold colors. cbn [list_to_map foldr uncurry fst snd].
  rewrite !lookup_insert_ne, lookup_empty; [reflexivity|..];
    intros <-; apply H; set_solver.
Qed.

(** The five grades have their colours, and ["Z"] gets the grey. *)
Lemma getGradeColor_table :
  getGradeColor "A" = Text "#22c55e"
  /\ getGradeColor "B" = Text "#84cc16"
  /\ getGradeColor "C" = Text "#eab308"
  /\ getGradeColor "D" = Text "#f97316"
  /\ getGradeColor "F" = Text "#ef4444"
  /\ getGradeColor "Z" = Text "#6b7280".
Proof. repeat split; vm_compute; reflexivity. Qed.

(** A grade that is none of the five and no property name of
    [Object.prototype] gets the grey. *)
Lemma getGradeColor_fallback (grade : string) :
  grade ∉ ["A"; "B"; "C"; "D"; "F"] ->
  grade ∉ objectPrototype ->
  getGradeColor grade = Text "#6b7280".
Proof.
  intros Hg Hp. unfold getGradeColor, get.
  rewrite (colors_other grade Hg).
  rewrite bool_decide_eq_false_2 by exact Hp. reflexivity.
Qed.

(** C8: [colors] is an object literal read with [colors[grade]], so a
    grade that names a member inherited from [Object.prototype] finds
    that member; it is truthy and is returned in place of the grey. *)
Theorem getGradeColor_inherited :
  getGradeColor "constructor" = Inherited "constructor"
  /\ getGradeColor "toString" = Inherited "toString"
  /\ getGradeColor "constructor" <> Text "#6b7280".
Proof.
  assert (H : getGradeColor "constructor" = Inherited "constructor")
    by (vm_compute; reflexivity).
  split; [exact H|]. split; [vm_compute; reflexivity|].
  rewrite H. discriminate.
Qed.

End GradeColor.

(** ** Categorized display *)

Section Categorized.
Import Types NutritionLabel.

Lemma index_lookup (l : list PolicyAttribute) (i : string) :
  fold_left (fun m a => <[id a := a]> m) l (∅ : gmap string PolicyAttribute) !! i
  = last (filter (fun a => id a = i) l).
Proof.
  induction l as [|a l IH] using rev_ind.
  - reflexivity.
  - rewrite fold_left_app. cbn [fold_left].
    rewrite filter_app, last_app, lookup_insert.
    rewrite filter_cons, filter_nil.
    destruct (decide (id a = i)) as [Heq|Hne]; [reflexivity|].
    cbn [last]. exact IH.
Qed.

(** The map holds, for each id, the last attribute with that id. *)
Lemma attrMap_lookup (data : AnalyzeResponse) (i : string) :
  attrMap data !! i = lastWithId data i.
Proof. apply index_lookup. Qed.

Lemma attrMap_lookup_Some (data : AnalyzeResponse) (i : string) (a : PolicyAttribute) :
  attrMap data !! i = Some a -> a ∈ attributes data /\ id a = i.
Proof.
  rewrite attrMap_lookup. unfold lastWithId. intros H.
  apply last_Some_elem_of, list_elem_of_filter in H. tauto.
Qed.

Lemma attrMap_lookup_is_Some (data : AnalyzeResponse) (i : string) :
  is_Some (attrMap data !! i) <-> occurs data i.
Proof.
  unfold occurs. split.
  - intros [a Ha]. apply attrMap_lookup_Some in Ha as [Hin <-].
    apply list_elem_of_fmap. eauto.
  - intros H. apply list_elem_of_fmap in H as (a & -> & Hin).
    rewrite attrMap_lookup. unfold lastWithId.
    destruct (last (filter (fun b => id b = id a) (attributes data))) eqn:E;
      [eauto|].
    apply last_None in E.
    assert (Ha : a ∈ filter (fun b => id b = id a) (attributes data))
      by (apply list_elem_of_filter; split; [reflexivity|exact Hin]).
    rewrite E in Ha. inversion Ha.
Qed.

(** The attributes picked for a category are found by id, in the order in
    which the category lists its ids. *)
Lemma catAttrs_ids (data : AnalyzeResponse) (cat : Category) :
  id <$> catAttrs (attrMap data) cat = filter (occurs data) (ids cat).
Proof.
  unfold catAttrs. induction (ids cat) as [|i l IH]; [reflexivity|].
  cbn [omap list_omap]. rewrite filter_cons.
  destruct (attrMap data !! i) as [a|] eqn:E.
  - destruct (attrMap_lookup_Some _ _ _ E) as [_ Hid].
    rewrite decide_True by (apply attrMap_lookup_is_Some; rewrite E; eauto).
    rewrite fmap_cons, IH, Hid. reflexivity.
  - rewrite decide_False; [exact IH|].
    intros H. apply attrMap_lookup_is_Some in H. rewrite E in H.
    destruct H as [? H]. discriminate H.
Qed.

Lemma catAttrs_elem (data : AnalyzeResponse) (cat : Category) (a : PolicyAttribute) :
  a ∈ catAttrs (attrMap data) cat ->
  id a ∈ ids cat /\ attrMap data !! id a = Some a.
Proof.
  unfold catAttrs. intros H. apply list_elem_of_omap in H as (i & Hi & Hl).
  destruct (attrMap_lookup_Some _ _ _ Hl) as [_ <-]. split; assumption.
Qed.

Lemma elem_of_concat {A : Type} (x : A) (ls : list (list A)) :
  x ∈ concat ls <-> exists l, x ∈ l /\ l ∈ ls.
Proof.
  rewrite list_elem_of_In, in_concat. split.
  - intros (l & Hl & Hx). exists l. rewrite !list_elem_of_In. tauto.
  - intros (l & Hx & Hl). exists l. rewrite <- !list_elem_of_In. tauto.
Qed.

Lemma CategorySection_Some (t i : string) (attrs : list PolicyAttribute) (s : Section_) :
  CategorySection t i attrs = Some s ->
  attrs <> [] /\ sec_title s = t /\ sec_icon s = i
  /\ sec_rows s = AttributeRow <$> attrs.
Proof.
  unfold CategorySection. destruct attrs as [|a l]; cbn; [discriminate|].
  intros [= <-]. cbn. repeat split. discriminate.
Qed.

(** Sections come in the order of the category list; a category without a
    match gives none; the rows of a section are the ids of its category
    that occur in the report, in the category's order. *)
Lemma sections_outline (data : AnalyzeResponse) (cats : list Category) :
  outline <$>
    omap (fun cat => CategorySection (title cat) (icon cat)
                                     (catAttrs (attrMap data) cat)) cats
  = filter (fun x => x.2 <> [])
      ((fun cat => (title cat, icon cat, filter (occurs data) (ids cat))) <$> cats).
Proof.
  induction cats as [|cat cats IH]; [reflexivity|].
  rewrite fmap_cons, filter_cons. cbn [omap list_omap snd].
  rewrite <- catAttrs_ids.
  destruct (catAttrs (attrMap data) cat) as [|a l] eqn:E.
  - cbn [CategorySection length Nat.eqb fmap list_fmap].
    rewrite decide_False by (intros H; apply H; reflexivity).
    exact IH.
  - cbn [CategorySection length Nat.eqb].
    rewrite decide_True by discriminate.
    rewrite fmap_cons, IH. f_equal.
    unfold outline. cbn [sec_title sec_icon sec_rows].
    rewrite <- list_fmap_compose. reflexivity.
Qed.

Lemma sections_row_ids (data : AnalyzeResponse) (cats : list Category) :
  (fun r => id (row_attr r)) <$>
    concat (sec_rows <$>
              omap (fun cat => CategorySection (title cat) (icon cat)
                                               (catAttrs (attrMap data) cat)) cats)
  = filter (occurs data) (concat (ids <$> cats)).
Proof.
  induction cats as [|cat cats IH]; [reflexivity|].
  rewrite fmap_cons. cbn [concat omap list_omap]. rewrite filter_app.
  rewrite <- catAttrs_ids, <- IH.
  destruct (catAttrs (attrMap data) cat) as [|a l] eqn:E.
  - reflexivity.
  - cbn [CategorySection length Nat.eqb].
    rewrite fmap_cons. cbn [concat sec_rows]. rewrite fmap_app.
    f_equal. rewrite <- list_fmap_compose. reflexivity.
Qed.

Lemma allRows_ids (data : AnalyzeResponse) :
  (fun r => id (row_attr r)) <$> allRows data
  = filter (occurs data) taxonomyIds.
Proof. apply sections_row_ids. Qed.

(** Every row shows an attribute of the report: the last one with its
    id. *)
Lemma allRows_elem (data : AnalyzeResponse) (r : Row) :
  r ∈ allRows data ->
  r = AttributeRow (row_attr r)
  /\ row_attr r ∈ attributes data
  /\ lastWithId data (id (row_attr r)) = Some (row_attr r).
Proof.
  unfold allRows, categories. intros H.
  apply elem_of_concat in H as (rows & Hr & Hrows).
  apply list_elem_of_fmap in Hrows as (s & -> & Hs).
  apply list_elem_of_omap in Hs as (cat & _ & Hs).
  apply CategorySection_Some in Hs as (_ & _ & _ & Hrows).
  rewrite Hrows in Hr. apply list_elem_of_fmap in Hr as (a & -> & Ha).
  cbn [AttributeRow row_attr].
  apply catAttrs_elem in Ha as [_ Hl].
  split; [reflexivity|]. split.
  - apply (attrMap_lookup_Some _ _ _ Hl).
  - rewrite <- attrMap_lookup. exact Hl.
Qed.

Lemma taxonomyIds_NoDup : NoDup taxonomyIds.
Proof. apply (bool_decide_unpack (NoDup taxonomyIds)). vm_compute. exact I. Qed.

Lemma filter_none {A : Type} (P : A -> Prop) `{forall x, Decision (P x)}
    (l : list A) :
  (forall x, x ∈ l -> ~ P x) -> filter P l = [].
Proof.
  induction l as [|x l IH]; [reflexivity|]. intros Hl.
  rewrite filter_cons, decide_False by (apply Hl; left).
  apply IH. intros y Hy. apply Hl. right. exact Hy.
Qed.

Lemma NoDup_fmap_filter_length {A B : Type} `{EqDecision B}
    (f : A -> B) (l : list A) (b : B) :
  NoDup (f <$> l) -> (length (filter (fun x => f x = b) l) <= 1)%nat.
Proof.
  induction l as [|x l IH]; [cbn; lia|].
  rewrite fmap_cons, NoDup_cons. intros [Hx Hl].
  rewrite filter_cons. destruct (decide (f x = b)) as [Heq|Hne].
  - rewrite filter_none; [cbn; lia|].
    intros y Hy Hfy. apply Hx. rewrite Heq, <- Hfy.
    apply list_elem_of_fmap. eauto.
  - apply IH, Hl.
Qed.

Lemma allRows_in_taxonomy (data : AnalyzeResponse) (r : Row) :
  r ∈ allRows data -> id (row_attr r) ∈ taxonomyIds.
Proof.
  intros H.
  assert (Hi : id (row_attr r) ∈ (fun r => id (row_attr r)) <$> allRows data)
    by (apply list_elem_of_fmap; eauto).
  rewrite allRows_ids in Hi. apply list_elem_of_filter in Hi. tauto.
Qed.

Lemma outline_rows (s : Section_) :
  length (outline s).2 = length (sec_rows s).
Proof. unfold outline. cbn [snd]. apply length_fmap. Qed.

(** C7: the sections follow the four taxonomy categories in declaration
    order; each shows, in the category's id order, the attributes found
    by id in the report; a category without a match is omitted; an
    attribute whose id is not in the taxonomy is in no row; a report whose
    ids are exactly data_selling, account_deletion, encryption and
    unilateral_changes gives the four categories in order with one row
    each. *)
Theorem categories_follow_taxonomy (data : AnalyzeResponse) :
  outline <$> categories data
  = filter (fun x => x.2 <> [])
      ((fun cat => (title cat, icon cat, filter (occurs data) (ids cat)))
         <$> CATEGORIES)
  /\ title <$> CATEGORIES
     = ["Data Practices"; "Your Rights"; "Security & Retention"; "Legal Terms"]
  /\ (forall r, r ∈ allRows data ->
        row_attr r ∈ attributes data /\ id (row_attr r) ∈ taxonomyIds)
  /\ (forall a, id a ∉ taxonomyIds -> AttributeRow a ∉ allRows data)
  /\ ((forall i, occurs data i <->
                 i ∈ ["data_selling"; "account_deletion"; "encryption";
                      "unilateral_changes"]) ->
      outline <$> categories data
      = [ ("Data Practices", "🔐", ["data_selling"]);
          ("Your Rights", "👤", ["account_deletion"]);
          ("Security & Retention", "🛡️", ["encryption"]);
          ("Legal Terms", "📋", ["unilateral_changes"]) ]
      /\ length (categories data) = 4%nat
      /\ Forall (fun s => length (sec_rows s) = 1%nat) (categories data)).
Proof.
  assert (Hshape := sections_outline data CATEGORIES).
  fold (categories data) in Hshape.
  split; [exact Hshape|]. split; [reflexivity|]. split; [|split].
  - intros r Hr. split.
    + apply (allRows_elem data r Hr).
    + apply (allRows_in_taxonomy data r Hr).
  - intros a Ha Hr. apply Ha.
    apply (allRows_in_taxonomy data _ Hr).
  - intros Hfour.
    assert (E : forall l,
               filter (occurs data) l
               = filter (fun i => i ∈ ["data_selling"; "account_deletion";
                                       "encryption"; "unilateral_changes"]) l)
      by (intros l; apply list_filter_iff; exact Hfour).
    assert (Ho : outline <$> categories data
                 = [ ("Data Practices", "🔐", ["data_selling"]);
                     ("Your Rights", "👤", ["account_deletion"]);
                     ("Security & Retention", "🛡️", ["encryption"]);
                     ("Legal Terms", "📋", ["unilateral_changes"]) ]).
    { rewrite Hshape. unfold CATEGORIES.
      cbn [fmap list_fmap title icon ids]. rewrite !E.
      vm_compute. reflexivity. }
    split; [exact Ho|].
    assert (Hl : (fun s => length (sec_rows s)) <$> categories data
                 = [1; 1; 1; 1]%nat).
    { transitivity ((fun o => length o.2) <$> (outline <$> categories data)).
      - rewrite <- list_fmap_compose. apply list_fmap_ext.
        intros k s _. symmetry. apply outline_rows.
      - rewrite Ho. reflexivity. }
    split.
    + apply (f_equal length) in Hl. rewrite length_fmap in Hl. exact Hl.
    + apply (Forall_fmap (fun s => length (sec_rows s)) (fun n => n = 1%nat)).
      rewrite Hl. repeat constructor.
Qed.

(** C10: the id-to-attribute map keeps, for an id, the last attribute of
    the report with that id; over all sections at most one row has a given
    id, that row shows this last attribute, and it is there whenever the
    id is in the taxonomy and occurs in the report. *)
Theorem categories_last_write_wins (data : AnalyzeResponse) (i : string) :
  attrMap data !! i = lastWithId data i
  /\ (length (filter (fun r => id (row_attr r) = i) (allRows data)) <= 1)%nat
  /\ (forall r, r ∈ allRows data -> id (row_attr r) = i ->
        lastWithId data i = Some (row_attr r))
  /\ (i ∈ taxonomyIds -> occurs data i ->
        exists a, lastWithId data i = Some a /\ AttributeRow a ∈ allRows data).
Proof.
  split; [apply attrMap_lookup|]. split; [|split].
  - apply NoDup_fmap_filter_length. rewrite allRows_ids.
    apply NoDup_filter, taxonomyIds_NoDup.
  - intros r Hr <-. apply (allRows_elem data r Hr).
  - intros Ht Ho.
    assert (Hi : i ∈ (fun r => id (row_attr r)) <$> allRows data).
    { rewrite allRows_ids. apply list_elem_of_filter. split; assumption. }
    apply list_elem_of_fmap in Hi as (r & -> & Hr).
    destruct (allRows_elem data r Hr) as (Hrow & _ & Hlast).
    exists (row_attr r). split; [exact Hlast|].
    rewrite <- Hrow. exact Hr.
Qed.

Lemma categories_follow_taxonomy_witness :
  outline <$> categories Samples.onePerCategory
  = [ ("Data Practices", "🔐", ["data_selling"]);
      ("Your Rights", "👤", ["account_deletion"]);
      ("Security & Retention", "🛡️", ["encryption"]);
      ("Legal Terms", "📋", ["unilateral_changes"]) ]
  /\ length (categories Samples.onePerCategory) = 4%nat
  /\ Forall (fun s => length (sec_rows s) = 1%nat)
            (categories Samples.onePerCategory).
Proof.
  apply (proj2 (proj2 (proj2 (proj2
           (categories_follow_taxonomy Samples.onePerCategory))))).
  intros i. unfold occurs. cbn. rewrite !elem_of_cons, !elem_of_nil. tauto.
Defined.

Lemma categories_last_write_wins_witness :
  exists a,
    lastWithId Samples.repeated "data_selling" = Some a
    /\ AttributeRow a ∈ allRows Samples.repeated.
Proof.
  apply (proj2 (proj2 (proj2
           (categories_last_write_wins Samples.repeated "data_selling")))).
  - apply (bool_decide_unpack ("data_selling" ∈ taxonomyIds)).
    vm_compute. exact I.
  - apply (bool_decide_unpack (occurs Samples.repeated "data_selling")).
    vm_compute. exact I.
Defined.

(** In the report with the repeated id, the row shown is the later of the
  two attributes. *)
Lemma repeated_shows_later :
  lastWithId Samples.repeated "data_selling"
  = Some (Samples.attribute "data_selling" "good" 12 12)
  /\ (fun r => (id (row_attr r), severity (row_attr r)))
       <$> allRows Samples.repeated
     = [("data_selling", "good"); ("encryption", "good")].
Proof. split; vm_compute; reflexivity. Qed.

End Categorized.

(** ** The request lifecycle *)

Section Lifecycle.
Import Actions Home.

Lemma trim_blank (query : string) :
  JsString.trim query = "" -> JsString.truthy (JsString.trim query) = false.
Proof. intros ->. reflexivity. Qed.

Lemma statusLine_shown (res : Response) : shown (statusLine res) = true.
Proof. reflexivity. Qed.

(** A blank query is turned down before anything is sent. *)
Lemma analyzeService_blank (query : string) :
  JsString.trim query = "" ->
  analyzeService query = Throw (Error validationMessage).
Proof.
  intros H. unfold analyzeService. rewrite (trim_blank query H). reflexivity.
Qed.

(** Any other query suspends at the one [fetch] it issues. *)
Lemma analyzeService_sends (query : string) :
  JsString.truthy (JsString.trim query) = true ->
  exists k, analyzeService query = AwaitFetch (requestFor query) k.
Proof.
  intros H. unfold analyzeService. rewrite H. cbn. eexists. reflexivity.
Qed.

(** [handleSearch] on a query that is not blank: results cleared, the query
  recorded, one request sent, one more call in flight. *)
Lemma handleSearch_sends (query : string) (w : World) :
  JsString.truthy (JsString.trim query) = true ->
  home (handleSearch query w)
  = {| result := None; error := None; activeQuery := query |}
  /\ requests (handleSearch query w) = (requests w ++ [requestFor query])%list
  /\ length (transitions (handleSearch query w)) = S (length (transitions w))
  /\ lifecycle (handleSearch query w) = Pending.
Proof.
  intros H. unfold handleSearch, action, analyzeService. rewrite H. cbn.
  split; [reflexivity|]. split; [reflexivity|]. split.
  - rewrite length_app. cbn. lia.
  - unfold lifecycle, isPending. cbn.
    destruct (transitions w); reflexivity.
Qed.

Lemma started_length (p : Async (State -> State)) (w : World) :
  (length (transitions (started p w)) <= S (length (transitions w)))%nat.
Proof.
  destruct p; cbn; rewrite ?length_app; cbn; lia.
Qed.

Lemma delete_length_le {A : Type} (i : nat) (l : list A) :
  (length (delete i l) <= length l)%nat.
Proof.
  revert i. induction l as [|x l IH]; intros [|i]; simpl; try lia.
  specialize (IH i). lia.
Qed.

Lemma resumed_length (i : nat) (p : Async (State -> State)) (w : World) :
  (length (transitions (resumed i p w)) <= length (transitions w))%nat.
Proof.
  destruct p; cbn [resumed transitions];
    rewrite ?length_insert; try apply delete_length_le; lia.
Qed.

Lemma handleSearch_length (query : string) (w : World) :
  (length (transitions (handleSearch query w)) <= S (length (transitions w)))%nat.
Proof.
  unfold handleSearch. etransitivity; [apply started_length|].
  cbn [transitions]. lia.
Qed.

Lemma isPending_false (w : World) : isPending w = false -> transitions w = [].
Proof. unfold isPending. destruct (transitions w); [reflexivity|discriminate]. Qed.

(** While a call is pending the controls of the page start nothing. *)
Lemma pending_ignores_controls (w : World) :
  isPending w = true ->
  forall (text : string) (n : nat),
    step w (Submit text) = w /\ step w (Select n) = w /\ step w Reset = w.
Proof.
  intros H text n. cbn [step]. unfold SearchBar.handleSubmit, showsGrid, showsResult.
  rewrite H, !andb_false_r. repeat split.
Qed.

(** No event raises the number of calls in flight above one. *)
Lemma step_single_flight (w : World) (e : Event) :
  (length (transitions w) <= 1)%nat ->
  (length (transitions (step w e)) <= 1)%nat.
Proof.
  intros Hw. destruct e as [text|n| |i r|i r|i]; cbn [step].
  - unfold SearchBar.handleSubmit.
    destruct (JsString.truthy (JsString.trim text)); cbn [andb]; [|exact Hw].
    destruct (isPending w) eqn:E; cbn [negb]; [exact Hw|].
    pose proof (handleSearch_length (JsString.trim text) w) as Hl.
    rewrite (isPending_false w E) in Hl. exact Hl.
  - unfold showsGrid, ServiceGrid.click.
    destruct (isPending w) eqn:E; [rewrite andb_false_r; exact Hw|].
    destruct (negb (hasResult (home w)) && negb false); [|exact Hw].
    destruct (ServiceGrid.SERVICE_PRESETS !! n) as [svc|]; [|exact Hw].
    pose proof (handleSearch_length (ServiceGrid.name svc) w) as Hl.
    rewrite (isPending_false w E) in Hl. exact Hl.
  - destruct (showsResult w); exact Hw.
  - destruct (transitions w !! i) as [[| |req k|k]|]; try exact Hw.
    etransitivity; [apply resumed_length|exact Hw].
  - destruct (transitions w !! i) as [[| |req k|k]|]; try exact Hw.
    etransitivity; [apply resumed_length|exact Hw].
  - destruct (transitions w !! i) as [[| |req k|k]|]; try exact Hw;
      (etransitivity; [apply resumed_length|exact Hw]).
Qed.

Lemma action_residual (query : string) : Residual (action query).
Proof.
  unfold action. generalize (analyzeService query) as p.
  induction p as [data|e|req k IH|k IH]; cbn.
  - apply residual_result.
  - apply residual_error.
  - apply residual_fetch. exact IH.
  - apply residual_json. exact IH.
Qed.

Lemma started_cleared (p : Async (State -> State)) (w : World) :
  Residual p -> transitions w = [] ->
  result (home w) = None -> error (home w) = None ->
  Settled (started p w) \/ Waiting (started p w).
Proof.
  intros Hp Ht Hr He. destruct Hp as [data|message|req k Hk|k Hk].
  - left. split; [exact Ht|]. right. exact He.
  - left. split; [exact Ht|]. left. exact Hr.
  - right. split; [|split; assumption].
    exists (AwaitFetch req k). cbn. rewrite Ht.
    split; [reflexivity|apply residual_fetch, Hk].
  - right. split; [|split; assumption].
    exists (AwaitJson k). cbn. rewrite Ht.
    split; [reflexivity|apply residual_json, Hk].
Qed.

Lemma handleSearch_settled (query : string) (w : World) :
  transitions w = [] ->
  Settled (handleSearch query w) \/ Waiting (handleSearch query w).
Proof.
  intros Ht. unfold handleSearch.
  apply started_cleared; [apply action_residual|exact Ht|reflexivity..].
Qed.

Lemma resumed_waiting (p p' : Async (State -> State)) (w : World) :
  transitions w = [p] -> Residual p' ->
  result (home w) = None -> error (home w) = None ->
  Settled (resumed 0 p' w) \/ Waiting (resumed 0 p' w).
Proof.
  intros Ht Hp Hr He. destruct Hp as [data|message|req k Hk|k Hk];
    cbn [resumed]; rewrite Ht.
  - left. split; [reflexivity|]. right. exact He.
  - left. split; [reflexivity|]. left. exact Hr.
  - right. split; [|split; assumption].
    exists (AwaitFetch req k). split; [reflexivity|apply residual_fetch, Hk].
  - right. split; [|split; assumption].
    exists (AwaitJson k). split; [reflexivity|apply residual_json, Hk].
Qed.

(** Every event keeps the page in one of the two shapes. *)
Lemma step_one_thing (w : World) (e : Event) :
  Settled w \/ Waiting w -> Settled (step w e) \/ Waiting (step w e).
Proof.
  intros [[Ht Hone]|((p & Ht & Hp) & Hr & He)].
  - assert (Hpend : isPending w = false) by (unfold isPending; rewrite Ht; reflexivity).
    destruct e as [text|n| |i r|i r|i]; cbn [step]; rewrite ?Ht; cbn.
    + unfold SearchBar.handleSubmit. rewrite Hpend.
      destruct (JsString.truthy (JsString.trim text)); cbn.
      * apply handleSearch_settled, Ht.
      * left. split; assumption.
    + unfold ServiceGrid.click. rewrite Hpend.
      destruct (showsGrid w); [|left; split; assumption].
      destruct (ServiceGrid.SERVICE_PRESETS !! n) as [svc|];
        [apply handleSearch_settled, Ht|left; split; assumption].
    + destruct (showsResult w); [|left; split; assumption].
      left. split; [exact Ht|]. left. reflexivity.
    + left. split; assumption.
    + left. split; assumption.
    + left. split; assumption.
  - assert (Hpend : isPending w = true) by (unfold isPending; rewrite Ht; reflexivity).
    assert (Hsame : Settled w \/ Waiting w).
    { right. split; [|split; assumption]. exists p. split; assumption. }
    destruct e as [text|n| |i r|i r|i].
    + rewrite (proj1 (pending_ignores_controls w Hpend text 0%nat)). exact Hsame.
    + rewrite (proj1 (proj2 (pending_ignores_controls w Hpend "" n))). exact Hsame.
    + rewrite (proj2 (proj2 (pending_ignores_controls w Hpend "" 0%nat))). exact Hsame.
    + cbn [step]. rewrite Ht. destruct i as [|i]; [|exact Hsame]. cbn.
      destruct Hp as [data|message|req k Hk|k Hk]; try exact Hsame.
      apply (resumed_waiting _ _ _ Ht (Hk r) Hr He).
    + cbn [step]. rewrite Ht. destruct i as [|i]; [|exact Hsame]. cbn.
      destruct Hp as [data|message|req k Hk|k Hk]; try exact Hsame.
      apply (resumed_waiting _ _ _ Ht (Hk r) Hr He).
    + cbn [step]. rewrite Ht. destruct i as [|i]; [|exact Hsame]. cbn.
      destruct Hp as [data|message|req k Hk|k Hk]; try exact Hsame.
      * apply (resumed_waiting _ _ _ Ht (Hk (inl abortError)) Hr He).
      * apply (resumed_waiting _ _ _ Ht (Hk (inl abortError)) Hr He).
Qed.

Lemma run_one_thing (events : list Event) (w : World) :
  Settled w \/ Waiting w -> Settled (run w events) \/ Waiting (run w events).
Proof.
  revert w. induction events as [|e events IH]; intros w Hw; [exact Hw|].
  cbn [run fold_left]. apply IH, step_one_thing, Hw.
Qed.

Lemma run_single_flight (events : list Event) (w : World) :
  (length (transitions w) <= 1)%nat ->
  (length (transitions (run w events)) <= 1)%nat.
Proof.
  revert w. induction events as [|e events IH]; intros w Hw; [exact Hw|].
  cbn [run fold_left]. apply IH, step_single_flight, Hw.
Qed.

(** A submit of the search bar on the fresh page hands the trimmed text to
  [handleSearch]. *)
Lemma run_submit (text : string) (events : list Event) :
  JsString.truthy (JsString.trim text) = true ->
  run init (Submit text :: events)
  = run (handleSearch (JsString.trim text) init) events.
Proof.
  intros H. cbn [run fold_left step]. unfold SearchBar.handleSubmit.
  rewrite H. reflexivity.
Qed.

Lemma trim_trim_truthy (text : string) :
  JsString.truthy (JsString.trim text) = true ->
  JsString.truthy (JsString.trim (JsString.trim text)) = true.
Proof. rewrite trim_idempotent. tauto. Qed.

(** Whenever the search bar calls [handleSearch], the query passes the
  validation of [analyzeService] and its request is sent. *)
Lemma submit_passes_validation (w : World) (text : string) :
  step w (Submit text) = w
  \/ (step w (Submit text) = handleSearch (JsString.trim text) w
      /\ exists k, analyzeService (JsString.trim text)
                   = AwaitFetch (requestFor text) k).
Proof.
  cbn [step]. unfold SearchBar.handleSubmit.
  destruct (JsString.truthy (JsString.trim text)) eqn:E; [|left; reflexivity].
  destruct (isPending w); [left; reflexivity|]. right. split; [reflexivity|].
  destruct (analyzeService_sends _ (trim_trim_truthy text E)) as [k Hk].
  exists k. rewrite Hk. unfold requestFor. rewrite trim_idempotent. reflexivity.
Qed.

(** So does every preset of the grid. *)
Lemma presets_pass_validation :
  Forall (fun svc => JsString.truthy (JsString.trim (ServiceGrid.name svc)) = true)
         ServiceGrid.SERVICE_PRESETS.
Proof. repeat constructor. Qed.

(** [handleSearch] itself, were it handed a blank query, would send nothing
  and show the validation error of [analyzeService] as a failure. *)
Lemma handleSearch_blank (text : string) (w : World) :
  JsString.trim text = "" ->
  requests (handleSearch text w) = requests w
  /\ transitions (handleSearch text w) = transitions w
  /\ error (home (handleSearch text w)) = Some validationMessage.
Proof.
  intros H. unfold handleSearch, action. rewrite (analyzeService_blank text H).
  repeat split.
Qed.

(** C2: a query that is blank after trimming, submitted through the search
  bar, changes nothing: no call is started, no request is sent, and a page
  that was idle stays idle; the submit button is disabled for such a text;
  and [analyzeService] itself turns a blank query down with its validation
  error before any request, so that [handleSearch] sends nothing for it
  either. *)
Theorem blank_submit_rejected (text : string) (w : World) :
  JsString.trim text = "" ->
  step w (Submit text) = w
  /\ requests (step w (Submit text)) = requests w
  /\ (lifecycle w = Idle -> lifecycle (step w (Submit text)) = Idle)
  /\ SearchBar.disabled (isPending w) text = true
  /\ analyzeService text = Throw (Error validationMessage)
  /\ requests (handleSearch text w) = requests w.
Proof.
  intros H.
  assert (Hstep : step w (Submit text) = w).
  { cbn [step]. unfold SearchBar.handleSubmit.
    rewrite (trim_blank text H). reflexivity. }
  rewrite Hstep. split; [reflexivity|]. split; [reflexivity|].
  split; [tauto|]. split.
  - unfold SearchBar.disabled. rewrite (trim_blank text H). reflexivity.
  - split; [apply analyzeService_blank, H|].
    unfold handleSearch, action. rewrite (analyzeService_blank text H).
    reflexivity.
Qed.

Lemma blank_submit_rejected_witness :
  step init (Submit "   ") = init
  /\ requests (step init (Submit "   ")) = requests init
  /\ (lifecycle init = Idle -> lifecycle (step init (Submit "   ")) = Idle)
  /\ SearchBar.disabled (isPending init) "   " = true
  /\ analyzeService "   " = Throw (Error validationMessage)
  /\ requests (handleSearch "   " init) = requests init.
Proof. apply (blank_submit_rejected "   " init). reflexivity. Defined.

(** C3, counterexample: no outcome is ever compared with a token.  On the
  page, a submit of "Spotify" while the call for "Netflix" is pending does
  not supersede that call: it is dropped, and the late answer for
  "Netflix" is stored and shown.  [handleSearch] itself, called for
  "Spotify" while the call for "Netflix" is pending, has two calls in
  flight; the answer for "Spotify" arrives first and is stored, then the
  late answer for "Netflix" arrives and replaces it, while the active
  query still reads "Spotify". *)
Lemma stale_outcome_overwrites :
  lifecycle (run init [ Submit "Netflix"; Submit "Spotify";
                        FetchSettles 0 (inr Samples.status200);
                        JsonSettles 0 (inr Samples.found) ])
  = Success Samples.found
  /\ requests (run init [Submit "Netflix"; Submit "Spotify"])
     = [requestFor "Netflix"]
  /\ length (transitions Samples.twoSearches) = 2%nat
  /\ activeQuery (home Samples.twoSearches) = "Spotify"
  /\ result (home (run Samples.twoSearches
                       [ FetchSettles 1 (inr Samples.status200);
                         JsonSettles 1 (inr Samples.other) ]))
     = Some Samples.other
  /\ result (home (run Samples.twoSearches
                       [ FetchSettles 1 (inr Samples.status200);
                         JsonSettles 1 (inr Samples.other);
                         FetchSettles 0 (inr Samples.status200);
                         JsonSettles 0 (inr Samples.found) ]))
     = Some Samples.found
  /\ lifecycle (run Samples.twoSearches
                    [ FetchSettles 1 (inr Samples.status200);
                      JsonSettles 1 (inr Samples.other);
                      FetchSettles 0 (inr Samples.status200);
                      JsonSettles 0 (inr Samples.found) ])
     = Success Samples.found
  /\ activeQuery (home (run Samples.twoSearches
                            [ FetchSettles 1 (inr Samples.status200);
                              JsonSettles 1 (inr Samples.other);
                              FetchSettles 0 (inr Samples.status200);
                              JsonSettles 0 (inr Samples.found) ]))
     = "Spotify".
Proof. repeat split; vm_compute; reflexivity. Qed.

(** C3, as amended: whatever happens to the page, at most one call is in
  flight and at most one of result and error is set; while a call is
  pending neither is set, and a submit of the search bar, a click on a
  preset and the reset button change nothing.  A second submission cannot
  start before the first has ended, so the outcome that arrives is always
  that of the only submission there is. *)
Theorem single_flight (events : list Event) :
  (length (transitions (run init events)) <= 1)%nat
  /\ (result (home (run init events)) = None
      \/ error (home (run init events)) = None)
  /\ (isPending (run init events) = true ->
      result (home (run init events)) = None
      /\ error (home (run init events)) = None
      /\ forall (text : string) (n : nat),
          step (run init events) (Submit text) = run init events
          /\ step (run init events) (Select n) = run init events
          /\ step (run init events) Reset = run init events).
Proof.
  assert (Hinit : Settled init \/ Waiting init)
    by (left; split; [reflexivity|left; reflexivity]).
  pose proof (run_one_thing events init Hinit) as Hw.
  split; [apply run_single_flight; cbn; lia|]. split.
  - destruct Hw as [[_ Hone]|(_ & Hr & _)]; [exact Hone|left; exact Hr].
  - intros Hpend. destruct Hw as [[Ht _]|(_ & Hr & He)].
    + unfold isPending in Hpend. rewrite Ht in Hpend. discriminate.
    + split; [exact Hr|]. split; [exact He|].
      apply pending_ignores_controls, Hpend.
Qed.

Lemma single_flight_witness :
  (length (transitions (run init [Submit "Netflix"; Submit "Spotify"])) <= 1)%nat
  /\ activeQuery (home (run init [Submit "Netflix"; Submit "Spotify"])) = "Netflix"
  /\ step (run init [Submit "Netflix"]) (Submit "Spotify")
     = run init [Submit "Netflix"]
  /\ step (run init [Submit "Netflix"]) (Select 1) = run init [Submit "Netflix"].
Proof.
  split; [apply (single_flight [Submit "Netflix"; Submit "Spotify"])|].
  split; [reflexivity|].
  destruct (proj2 (proj2 (single_flight [Submit "Netflix"])) eq_refl)
    as (_ & _ & H).
  destruct (H "Spotify" 1%nat) as (H1 & H2 & _).
  split; [exact H1|exact H2].
Defined.

(** When the timer fires while the call waits for the response, the
  request fails with the timeout message. *)
Lemma timeout_while_fetching (text : string) :
  JsString.truthy (JsString.trim text) = true ->
  lifecycle (run init [Submit text; Timeout 0]) = Failure timedOut.
Proof.
  intros H. rewrite (run_submit _ _ H).
  unfold handleSearch, action, analyzeService.
  rewrite (trim_trim_truthy _ H). reflexivity.
Qed.

(** When it fires while the body of a success response is read, too. *)
Lemma timeout_while_reading_report (text : string) (res : Response) :
  JsString.truthy (JsString.trim text) = true ->
  ok res = true ->
  lifecycle (run init [Submit text; FetchSettles 0 (inr res); Timeout 0])
  = Failure timedOut.
Proof.
  intros H Hok. rewrite (run_submit _ _ H).
  unfold handleSearch, action, analyzeService.
  rewrite (trim_trim_truthy _ H). cbn. rewrite Hok. reflexivity.
Qed.

(** C5: the timer is still armed while the body of an error response is
  read, and there the rejection of [res.json()] is swallowed by its
  [catch]: a call that has received the status line 503 and is aborted by
  the timer before the body is complete fails with the status-line
  message, not with the timeout message.  On the two sibling paths (the
  timer fires during [fetch], or while a success body is read) the timeout
  message is given. *)
Theorem timeout_while_reading_error_body :
  lifecycle (run init [ Submit "Netflix";
                        FetchSettles 0 (inr Samples.status503);
                        Timeout 0 ])
  = Failure (Text "Backend returned 503: Service Unavailable")
  /\ lifecycle (run init [ Submit "Netflix";
                           FetchSettles 0 (inr Samples.status200);
                           Timeout 0 ])
     = Failure timedOut
  /\ lifecycle (run init [Submit "Netflix"; Timeout 0]) = Failure timedOut.
Proof. repeat split; vm_compute; reflexivity. Qed.

(** C6, counterexample: an error body that contains a [detail] member
  holding the empty string.  The request does not fail with that text but
  with the status line. *)
Lemma empty_detail_not_surfaced :
  lifecycle (run init [ Submit "Netflix";
                        FetchSettles 0 (inr Samples.status500);
                        JsonSettles 0
                          (inr (Json.Obj [("detail", Json.Str "")])) ])
  = Failure (Text "Backend returned 500: Internal Server Error").
Proof. vm_compute. reflexivity. Qed.

(** C6, as amended: for a response with a non-success status, if the body
  is a JSON object whose [detail] is a non-empty string the request fails
  with exactly that text; if the body cannot be read or parsed, or is a
  JSON object without [detail] or with a falsy [detail] (the empty string,
  [null], [false], [0]), or is a JSON value other than an object and
  [null], it fails with "Backend returned {status}: {statusText}". *)
Theorem non_success_message (text : string) (res : Response)
    (reply : Exn + Json.value) :
  JsString.truthy (JsString.trim text) = true ->
  ok res = false ->
  (forall fields d,
      reply = inr (Json.Obj fields) ->
      Json.field "detail" fields = Some (Json.Str d) -> d <> "" ->
      lifecycle (run init [ Submit text; FetchSettles 0 (inr res);
                            JsonSettles 0 reply ])
      = Failure (Text d))
  /\ (forall fields,
        reply = inr (Json.Obj fields) ->
        Json.field "detail" fields = None ->
        lifecycle (run init [ Submit text; FetchSettles 0 (inr res);
                              JsonSettles 0 reply ])
        = Failure (statusLine res))
  /\ (forall fields v,
        reply = inr (Json.Obj fields) ->
        Json.field "detail" fields = Some v -> Json.truthy v = false ->
        lifecycle (run init [ Submit text; FetchSettles 0 (inr res);
                              JsonSettles 0 reply ])
        = Failure (statusLine res))
  /\ (forall e,
        reply = inl e ->
        lifecycle (run init [ Submit text; FetchSettles 0 (inr res);
                              JsonSettles 0 reply ])
        = Failure (statusLine res))
  /\ (forall v,
        reply = inr v -> plain v = true ->
        lifecycle (run init [ Submit text; FetchSettles 0 (inr res);
                              JsonSettles 0 reply ])
        = Failure (statusLine res)).
Proof.
  intros Hq Hok. rewrite (run_submit _ _ Hq).
  unfold handleSearch, action, analyzeService.
  rewrite (trim_trim_truthy _ Hq). cbn.
  rewrite Hok. cbn. repeat split.
  - intros fields d -> Hd Hne. cbn. rewrite Hd. cbn.
    destruct d as [|c d]; [congruence|]. reflexivity.
  - intros fields -> Hd. cbn. rewrite Hd. reflexivity.
  - intros fields v -> Hd Hv. cbn. rewrite Hd. cbn. rewrite Hv. reflexivity.
  - intros e ->. reflexivity.
  - intros v -> Hv. destruct v; try discriminate Hv; reflexivity.
Qed.

Lemma non_success_message_witness :
  lifecycle (run init [ Submit "Netflix";
                        FetchSettles 0 (inr Samples.status503);
                        JsonSettles 0
                          (inr (Json.Obj [("detail", Json.Str "rate limited")])) ])
  = Failure (Text "rate limited")
  /\ lifecycle (run init [ Submit "Netflix";
                           FetchSettles 0 (inr Samples.status500);
                           JsonSettles 0 (inl (SyntaxError "Unexpected token <")) ])
     = Failure (Text "Backend returned 500: Internal Server Error").
Proof.
  split.
  - apply (proj1 (non_success_message "Netflix" Samples.status503
                    (inr (Json.Obj [("detail", Json.Str "rate limited")]))
                    eq_refl eq_refl)
             [("detail", Json.Str "rate limited")] "rate limited");
      [reflexivity|reflexivity|discriminate].
  - apply (proj1 (proj2 (proj2 (proj2
                    (non_success_message "Netflix" Samples.status500
                       (inl (SyntaxError "Unexpected token <"))
                       eq_refl eq_refl))))
             (SyntaxError "Unexpected token <")).
    reflexivity.
Defined.

(** A body that is the JSON value [null]: reading [detail] from it throws,
  and the message of that [TypeError] is what the page shows. *)
Lemma null_body_type_error :
  lifecycle (run init [ Submit "Netflix";
                        FetchSettles 0 (inr Samples.status500);
                        JsonSettles 0 (inr Json.Null) ])
  = Failure (Text "Cannot read properties of null (reading 'detail')").
Proof. vm_compute. reflexivity. Qed.


End Lifecycle.

(** ** More on the request lifecycle *)

Section Requests.
Import Actions Home Protocol.

Lemma requestFor_trim (text : string) :
  requestFor (JsString.trim text) = requestFor text.
Proof. unfold requestFor. rewrite trim_idempotent. reflexivity. Qed.

Lemma requestFor_WellFormed (query : string) :
  JsString.truthy (JsString.trim query) = true -> WellFormed (requestFor query).
Proof.
  intros H. unfold WellFormed, requestFor. cbn. repeat split.
  exists (JsString.trim query). split; [reflexivity|]. split.
  - intros E. rewrite E in H. discriminate.
  - apply trim_idempotent.
Qed.

Lemma isAbortError_newError (x : Json.value) : isAbortError (newError x) = false.
Proof. destruct x; reflexivity. Qed.

(** The action of [handleSearch] for a query that is not blank sends its
  request at once and nothing afterwards. *)
Lemma action_sends (query : string) :
  JsString.truthy (JsString.trim query) = true ->
  exists k, action query = AwaitFetch (requestFor query) k
            /\ forall r, Quiet (k r).
Proof.
  intros H. unfold action, analyzeService. rewrite H. cbn.
  eexists. split; [reflexivity|].
  intros [e|res]; cbn.
  - destruct (isAbortError e); cbn; apply quiet_return.
  - destruct (ok res); cbn; apply quiet_json.
    + intros [e|v]; cbn; [destruct (isAbortError e); cbn|]; apply quiet_return.
    + intros [e|v]; cbn.
      * apply quiet_return.
      * destruct v; cbn; rewrite ?isAbortError_newError; cbn;
          apply quiet_return.
Qed.

Lemma handleSearch_world (query : string) (w : World) :
  JsString.truthy (JsString.trim query) = true ->
  exists k,
    (forall r, Quiet (k r))
    /\ handleSearch query w
       = {| home := {| result := None; error := None; activeQuery := query |};
            transitions := transitions w ++ [AwaitFetch (requestFor query) k];
            requests := requests w ++ [requestFor query] |}.
Proof.
  intros H. destruct (action_sends query H) as (k & Hk & Hq).
  exists k. split; [exact Hq|]. unfold handleSearch. rewrite Hk. reflexivity.
Qed.

Lemma preset_names_trimmed :
  Forall (fun svc =>
            JsString.trim (ServiceGrid.name svc) = ServiceGrid.name svc
            /\ JsString.truthy (JsString.trim (ServiceGrid.name svc)) = true)
         ServiceGrid.SERVICE_PRESETS.
Proof. repeat constructor. Qed.

Lemma preset_lookup (n : nat) (svc : ServiceGrid.Preset) :
  ServiceGrid.SERVICE_PRESETS !! n = Some svc ->
  JsString.trim (ServiceGrid.name svc) = ServiceGrid.name svc
  /\ JsString.truthy (JsString.trim (ServiceGrid.name svc)) = true.
Proof.
  intros H. apply list_elem_of_lookup_2 in H.
  exact (proj1 (Forall_forall _ _) preset_names_trimmed svc H).
Qed.

Lemma showsGrid_idle (w : World) : showsGrid w = true -> isPending w = false.
Proof.
  unfold showsGrid. intros H. apply andb_true_iff in H as [_ H].
  apply negb_true_iff in H. exact H.
Qed.

(** What an accepted submission does, and that nothing else sends. *)
Lemma step_accepted (w : World) (e : Event) :
  accepted w e = true ->
  exists query k,
    JsString.truthy (JsString.trim query) = true
    /\ (forall r, Quiet (k r))
    /\ step w e
       = {| home := {| result := None; error := None; activeQuery := query |};
            transitions := transitions w ++ [AwaitFetch (requestFor query) k];
            requests := requests w ++ [requestFor query] |}.
Proof.
  destruct e as [text|n| |i r|i r|i]; cbn [accepted]; try discriminate.
  - intros H. cbn [step]. unfold SearchBar.handleSubmit. rewrite H.
    apply andb_true_iff in H as [Ht _].
    destruct (handleSearch_world _ w (trim_trim_truthy text Ht)) as (k & Hk & Hw).
    exists (JsString.trim text), k.
    split; [apply trim_trim_truthy, Ht|]. split; [exact Hk|exact Hw].
  - intros H. apply andb_true_iff in H as [Hg Hn].
    apply bool_decide_eq_true in Hn as [svc Hsvc].
    cbn [step]. unfold ServiceGrid.click.
    rewrite Hg, Hsvc, (showsGrid_idle w Hg).
    destruct (preset_lookup n svc Hsvc) as [_ Ht].
    destruct (handleSearch_world _ w Ht) as (k & Hk & Hw).
    exists (ServiceGrid.name svc), k. split; [exact Ht|]. split; [exact Hk|exact Hw].
Qed.

Lemma resumed_quiet (i : nat) (p : Async (State -> State)) (w : World) :
  Quiet p -> Forall SentOnce (transitions w) ->
  requests (resumed i p w) = requests w
  /\ Forall SentOnce (transitions (resumed i p w)).
Proof.
  intros Hp Hw. destruct Hp as [a|e|k Hk]; cbn [resumed requests transitions].
  - split; [reflexivity|]. apply Forall_delete, Hw.
  - split; [reflexivity|]. apply Forall_delete, Hw.
  - split; [reflexivity|].
    apply Forall_insert; [exact Hw|]. left. apply quiet_json, Hk.
Qed.

Lemma Quiet_inv {A : Type} (p : Async A) :
  Quiet p ->
  match p with
  | AwaitJson k => forall r, Quiet (k r)
  | AwaitFetch _ _ => False
  | _ => True
  end.
Proof. intros H. destruct H; auto. Qed.

Lemma SentOnce_fetch {A : Type} (req : Request) (k : Exn + Response -> Async A) :
  SentOnce (AwaitFetch req k) -> forall r, Quiet (k r).
Proof.
  intros [H|(req' & k' & E & H)].
  - destruct (Quiet_inv _ H).
  - injection E as _ ->. exact H.
Qed.

Lemma SentOnce_json {A : Type} (k : Exn + Json.value -> Async A) :
  SentOnce (AwaitJson k) -> forall r, Quiet (k r).
Proof.
  intros [H|(req' & k' & E & _)]; [exact (Quiet_inv _ H)|discriminate E].
Qed.

Lemma step_not_accepted (w : World) (e : Event) :
  accepted w e = false -> Forall SentOnce (transitions w) ->
  requests (step w e) = requests w
  /\ Forall SentOnce (transitions (step w e)).
Proof.
  intros Ha Hw.
  destruct e as [text|n| |i r|i r|i]; cbn [accepted] in Ha; cbn [step].
  - unfold SearchBar.handleSubmit. rewrite Ha. split; [reflexivity|exact Hw].
  - unfold ServiceGrid.click.
    destruct (showsGrid w); [|split; [reflexivity|exact Hw]].
    cbn in Ha. apply bool_decide_eq_false in Ha.
    destruct (ServiceGrid.SERVICE_PRESETS !! n) as [svc|].
    + exfalso. apply Ha. eauto.
    + split; [reflexivity|exact Hw].
  - destruct (showsResult w); split; try reflexivity; exact Hw.
  - destruct (transitions w !! i) as [[| |req k|k]|] eqn:E;
      try (split; [reflexivity|exact Hw]).
    apply resumed_quiet; [|exact Hw].
    apply (SentOnce_fetch req k).
    apply (proj1 (Forall_lookup _ _) Hw i _ E).
  - destruct (transitions w !! i) as [[| |req k|k]|] eqn:E;
      try (split; [reflexivity|exact Hw]).
    apply resumed_quiet; [|exact Hw].
    apply (SentOnce_json k).
    apply (proj1 (Forall_lookup _ _) Hw i _ E).
  - destruct (transitions w !! i) as [[| |req k|k]|] eqn:E;
      try (split; [reflexivity|exact Hw]).
    + apply resumed_quiet; [|exact Hw].
      apply (SentOnce_fetch req k).
      apply (proj1 (Forall_lookup _ _) Hw i _ E).
    + apply resumed_quiet; [|exact Hw].
      apply (SentOnce_json k).
      apply (proj1 (Forall_lookup _ _) Hw i _ E).
Qed.

Lemma run_requests (events : list Event) (w : World) :
  Forall SentOnce (transitions w) -> Forall WellFormed (requests w) ->
  Forall WellFormed (requests (run w events))
  /\ length (requests (run w events))
     = (length (requests w) + submissions w events)%nat.
Proof.
  revert w. induction events as [|e events IH]; intros w Ht Hr.
  - cbn. split; [exact Hr|lia].
  - cbn [run fold_left submissions]. fold (run (step w e) events).
    destruct (accepted w e) eqn:Ha.
    + destruct (step_accepted w e Ha) as (query & k & Hq & Hk & Hw).
      destruct (IH (step w e)) as [H1 H2].
      * rewrite Hw. cbn [transitions]. apply Forall_app. split; [exact Ht|].
        apply Forall_singleton. right. eauto.
      * rewrite Hw. cbn [requests]. apply Forall_app. split; [exact Hr|].
        apply Forall_singleton. apply requestFor_WellFormed, Hq.
      * split; [exact H1|]. rewrite H2, Hw. cbn [requests].
        rewrite length_app. cbn. lia.
    + destruct (step_not_accepted w e Ha Ht) as [Hreq Htr].
      destruct (IH (step w e) Htr) as [H1 H2]; [rewrite Hreq; exact Hr|].
      split; [exact H1|]. rewrite H2, Hreq. lia.
Qed.

End Requests.

(** ** The page as a whole *)

Section PageFacts.
Import Actions Home Protocol.

(** X1: on a page with nothing pending, a submit of a text that is not
  blank clears result and error, records the trimmed text as the active
  query, sends exactly one request (a POST of the trimmed text) and leaves
  the page pending with one call in flight. *)
Theorem submit_starts_one_call (w : World) (text : string) :
  isPending w = false ->
  JsString.truthy (JsString.trim text) = true ->
  home (step w (Submit text))
  = {| result := None; error := None; activeQuery := JsString.trim text |}
  /\ requests (step w (Submit text)) = (requests w ++ [requestFor text])%list
  /\ length (transitions (step w (Submit text))) = 1%nat
  /\ lifecycle (step w (Submit text)) = Pending.
Proof.
  intros Hp Ht. cbn [step]. unfold SearchBar.handleSubmit. rewrite Ht, Hp. cbn.
  destruct (handleSearch_sends _ w (trim_trim_truthy text Ht)) as (H1 & H2 & H3 & H4).
  rewrite H1, H2, H3, H4, requestFor_trim, (isPending_false w Hp).
  repeat split.
Qed.

Lemma submit_starts_one_call_witness :
  home (step init (Submit "  Netflix "))
  = {| result := None; error := None; activeQuery := JsString.trim "  Netflix " |}
  /\ requests (step init (Submit "  Netflix "))
     = (requests init ++ [requestFor "  Netflix "])%list
  /\ length (transitions (step init (Submit "  Netflix "))) = 1%nat
  /\ lifecycle (step init (Submit "  Netflix ")) = Pending.
Proof. apply (submit_starts_one_call init "  Netflix "); reflexivity. Defined.



(** X3: when [fetch] rejects with anything but an abort (a network
  failure), or the body of a success response fails to parse, the call ends
  with the error cell holding that error's own message (the fixed text "An
  unexpected error occurred." for a thrown value that is no Error), no
  result, and nothing left in flight. *)
Theorem transport_failure_surfaced (text : string) (res : Response) (e : Exn) :
  JsString.truthy (JsString.trim text) = true ->
  ok res = true ->
  isAbortError e = false ->
  run init [Submit text; FetchSettles 0 (inl e)]
  = {| home := {| result := None;
                  error := Some (if instanceofError e then messageOf e
                                 else Text "An unexpected error occurred.");
                  activeQuery := JsString.trim text |};
       transitions := [];
       requests := [requestFor text] |}
  /\ run init [Submit text; FetchSettles 0 (inr res); JsonSettles 0 (inl e)]
     = {| home := {| result := None;
                     error := Some (if instanceofError e then messageOf e
                                    else Text "An unexpected error occurred.");
                     activeQuery := JsString.trim text |};
          transitions := [];
          requests := [requestFor text] |}.
Proof.
  intros H Hok He. rewrite !(run_submit _ _ H).
  unfold handleSearch, action, analyzeService, requestFor.
  rewrite (trim_trim_truthy _ H), trim_idempotent. cbn.
  rewrite He, Hok. cbn. rewrite He. cbn. split; reflexivity.
Qed.

Lemma transport_failure_surfaced_witness :
  run init [Submit "Netflix"; FetchSettles 0 (inl (TypeError "fetch failed"))]
  = {| home := {| result := None; error := Some (Text "fetch failed");
                  activeQuery := "Netflix" |};
       transitions := [];
       requests := [requestFor "Netflix"] |}
  /\ run init [ Submit "Netflix"; FetchSettles 0 (inr Samples.status200);
                JsonSettles 0 (inl (TypeError "fetch failed")) ]
     = {| home := {| result := None; error := Some (Text "fetch failed");
                     activeQuery := "Netflix" |};
          transitions := [];
          requests := [requestFor "Netflix"] |}.
Proof.
  apply (transport_failure_surfaced "Netflix" Samples.status200
           (TypeError "fetch failed")); reflexivity.
Defined.

(** X4: when the pending [await] is rejected with an [AbortError] while the
  call waits for the response, or while it reads the body of a success
  response, the request fails with the message "Analysis timed out. The
  service might be taking too long to respond.", whatever the message of
  the abort itself. *)
Theorem abort_gives_timeout_message (text : string) (res : Response)
    (reason : string) :
  JsString.truthy (JsString.trim text) = true ->
  ok res = true ->
  lifecycle (run init [Submit text; Timeout 0]) = Failure timedOut
  /\ lifecycle (run init [Submit text; FetchSettles 0 (inr res); Timeout 0])
     = Failure timedOut
  /\ lifecycle (run init [ Submit text;
                           FetchSettles 0 (inl (DOMException "AbortError" reason)) ])
     = Failure timedOut
  /\ lifecycle (run init [ Submit text; FetchSettles 0 (inr res);
                           JsonSettles 0 (inl (DOMException "AbortError" reason)) ])
     = Failure timedOut.
Proof.
  intros H Hok.
  split; [apply timeout_while_fetching, H|].
  split; [apply timeout_while_reading_report; assumption|].
  rewrite !(run_submit _ _ H).
  unfold handleSearch, action, analyzeService.
  rewrite (trim_trim_truthy _ H). cbn. rewrite Hok. split; reflexivity.
Qed.

Lemma abort_gives_timeout_message_witness :
  lifecycle (run init [Submit "Netflix"; Timeout 0]) = Failure timedOut
  /\ lifecycle (run init [ Submit "Netflix";
                           FetchSettles 0 (inr Samples.status200); Timeout 0 ])
     = Failure timedOut
  /\ lifecycle (run init [ Submit "Netflix";
                           FetchSettles 0 (inl (DOMException "AbortError" "")) ])
     = Failure timedOut
  /\ lifecycle (run init [ Submit "Netflix";
                           FetchSettles 0 (inr Samples.status200);
                           JsonSettles 0 (inl (DOMException "AbortError" "")) ])
     = Failure timedOut.
Proof.
  apply (abort_gives_timeout_message "Netflix" Samples.status200 ""); reflexivity.
Defined.

(** X5: whatever happens to the page, every request it has sent is a POST
  to /analyze with content type JSON, no caching and the body
  [{query: text}] for a text that is not empty and has no white space at
  either end; and the number of requests sent equals the number of
  submissions the page accepted: one request per accepted submission, none
  for anything else. *)
Theorem requests_well_formed (events : list Event) :
  Forall WellFormed (requests (run init events))
  /\ length (requests (run init events)) = submissions init events.
Proof.
  assert (Ht : Forall SentOnce (transitions init)) by constructor.
  assert (Hr : Forall WellFormed (requests init)) by constructor.
  destruct (run_requests events init Ht Hr) as [H1 H2].
  split; [exact H1|exact H2].
Qed.


(** X7: a click on a preset card, where the grid is shown, does exactly
  what a submit of the search bar with the preset's name does; where the
  grid is not shown the click does nothing. *)
Theorem preset_like_typed_submit (w : World) (n : nat) (svc : ServiceGrid.Preset) :
  ServiceGrid.SERVICE_PRESETS !! n = Some svc ->
  (showsGrid w = true ->
   step w (Select n) = step w (Submit (ServiceGrid.name svc)))
  /\ (showsGrid w = false -> step w (Select n) = w).
Proof.
  intros Hn. destruct (preset_lookup n svc Hn) as [Htrim Ht]. split.
  - intros Hg. cbn [step]. unfold ServiceGrid.click, SearchBar.handleSubmit.
    rewrite Hg, Hn, Ht, Htrim, (showsGrid_idle w Hg). reflexivity.
  - intros Hg. cbn [step]. rewrite Hg. reflexivity.
Qed.

Lemma preset_like_typed_submit_witness :
  (showsGrid init = true -> step init (Select 1) = step init (Submit "Spotify"))
  /\ (showsGrid init = false -> step init (Select 1) = init).
Proof.
  apply (preset_like_typed_submit init 1
           {| ServiceGrid.name := "Spotify"; ServiceGrid.icon := "🎵";
              ServiceGrid.color := "#1DB954" |}).
  reflexivity.
Defined.

(** X8: the search bar calls [onSearch] exactly when its submit button is
  enabled; what it passes is the trimmed text, which is then not empty and
  which further trimming (that of [analyzeService]) leaves as it is. *)
Theorem search_bar_guard {W : Type} (onSearch : string -> W -> W)
    (isLoading : bool) (query : string) (w : W) :
  (SearchBar.disabled isLoading query = true ->
   SearchBar.handleSubmit onSearch isLoading query w = w)
  /\ (SearchBar.disabled isLoading query = false ->
      SearchBar.handleSubmit onSearch isLoading query w
      = onSearch (JsString.trim query) w
      /\ JsString.trim query <> ""
      /\ JsString.trim (JsString.trim query) = JsString.trim query).
Proof.
  unfold SearchBar.disabled, SearchBar.handleSubmit.
  destruct (JsString.truthy (JsString.trim query)) eqn:E, isLoading; cbn;
    split; try discriminate; intros _; try reflexivity.
  split; [reflexivity|]. split; [|apply trim_idempotent].
  intros H. rewrite H in E. discriminate.
Qed.

End PageFacts.

(** ** More on the label *)

Section LabelFacts.
Import Types NutritionLabel Scoring.

Lemma countSeverity_cons (s : string) (a : PolicyAttribute)
    (l : list PolicyAttribute) (data : AnalyzeResponse) :
  attributes data = a :: l ->
  countSeverity s data
  = ((if String.eqb (severity a) s then 1 else 0)
     + length (List.filter (fun b => String.eqb (severity b) s) l))%nat.
Proof.
  intros H. unfold countSeverity. rewrite H. cbn.
  destruct (String.eqb (severity a) s); reflexivity.
Qed.

Lemma counts_of_list (l : list PolicyAttribute) :
  let count s := length (List.filter (fun b => String.eqb (severity b) s) l) in
  (count "good" + count "neutral" + count "bad" <= length l)%nat
  /\ ((count "good" + count "neutral" + count "bad" = length l)%nat
      <-> Forall knownSeverity l).
Proof.
  induction l as [|a l [IHle IHeq]]; cbn zeta.
  - split; [cbn; lia|]. split; [constructor|reflexivity].
  - cbn zeta in IHle, IHeq. cbn [List.filter].
    assert (Hk : knownSeverity a
                 <-> (severity a = "good" \/ severity a = "neutral"
                      \/ severity a = "bad")).
    { unfold knownSeverity. rewrite !elem_of_cons, elem_of_nil. tauto. }
    rewrite Forall_cons, Hk.
    destruct (String.eqb_spec (severity a) "good") as [Eg|Eg];
      destruct (String.eqb_spec (severity a) "neutral") as [En|En];
      destruct (String.eqb_spec (severity a) "bad") as [Eb|Eb];
      try congruence; cbn [length]; (split; [lia|]).
    + split; [intros H; split; [tauto|apply IHeq; lia]|].
      intros [_ H2]. apply IHeq in H2. lia.
    + split; [intros H; split; [tauto|apply IHeq; lia]|].
      intros [_ H2]. apply IHeq in H2. lia.
    + split; [intros H; split; [tauto|apply IHeq; lia]|].
      intros [_ H2]. apply IHeq in H2. lia.
    + split; [intros H; lia|]. intros [H1 _]. tauto.
Qed.

(** X9: the three summary counts never add up to more than the number of
  attributes, and they add up to exactly that number if and only if every
  attribute's severity is one of good, neutral and bad; an attribute with
  any other severity is counted in no pill. *)
Theorem severity_counts (data : AnalyzeResponse) :
  (goodCount data + neutralCount data + badCount data
   <= length (attributes data))%nat
  /\ ((goodCount data + neutralCount data + badCount data
       = length (attributes data))%nat
      <-> Forall knownSeverity (attributes data)).
Proof. apply (counts_of_list (attributes data)). Qed.




(** X11: when the total weight of a report is zero, the width of the
  aggregate bar is never a finite number: it is [NaN] or an infinity, and
  it is [NaN] when the total of the points is zero as well. *)
Theorem ScoreBreakdown_zero_total_width (data : AnalyzeResponse) (q : Q) :
  totalPossible data = Number.Finite q -> (q == 0)%Q ->
  (ScoreBreakdown data = Number.NaN
   \/ ScoreBreakdown data = Number.PosInfinity
   \/ ScoreBreakdown data = Number.NegInfinity)
  /\ (forall e : Q, totalEarned data = Number.Finite e -> (e == 0)%Q ->
      ScoreBreakdown data = Number.NaN).
Proof.
  intros Ht Hq. split; [exact (ScoreBreakdown_zero_total data q Ht Hq)|].
  intros e He Hz. unfold ScoreBreakdown. rewrite Ht, He. cbn.
  rewrite (proj2 (Qeq_bool_iff q 0) Hq). unfold Number.sgn.
  destruct e as [n d]. unfold Qeq in Hz. cbn in Hz |- *.
  assert (n = 0%Z) as -> by lia. reflexivity.
Qed.

Lemma ScoreBreakdown_zero_total_width_witness :
  (ScoreBreakdown (Samples.report []) = Number.NaN
   \/ ScoreBreakdown (Samples.report []) = Number.PosInfinity
   \/ ScoreBreakdown (Samples.report []) = Number.NegInfinity)
  /\ (forall e : Q, totalEarned (Samples.report []) = Number.Finite e ->
      (e == 0)%Q -> ScoreBreakdown (Samples.report []) = Number.NaN).
Proof.
  apply (ScoreBreakdown_zero_total_width (Samples.report []) 0); reflexivity.
Defined.

End LabelFacts.

(** ** More on the display *)

Section DisplayFacts.
Import Types NutritionLabel.

(** X12: for a grade that is no property name of [Object.prototype],
  [getGradeColor] returns a non-empty colour string, and it is the grey
  "#6b7280" for every such grade other than "A", "B", "C", "D" and "F"
  (the lookup is case-sensitive: "a" gets the grey). *)
Theorem getGradeColor_outside_prototype (grade : string) :
  grade ∉ ScoreBadge.objectPrototype ->
  exists c : string,
    ScoreBadge.getGradeColor grade = ScoreBadge.Text c
    /\ JsString.truthy c = true
    /\ (grade ∉ ["A"; "B"; "C"; "D"; "F"] -> c = "#6b7280").
Proof.
  intros Hp. destruct (decide (grade ∈ ["A"; "B"; "C"; "D"; "F"])) as [Hin|Hout].
  - rewrite !elem_of_cons, elem_of_nil in Hin.
    destruct Hin as [->|[->|[->|[->|[->|[]]]]]];
      eexists; (split; [vm_compute; reflexivity|]);
      (split; [reflexivity|intros H; exfalso; apply H; set_solver]).
  - exists "#6b7280". split; [apply getGradeColor_fallback; assumption|].
    split; [reflexivity|intros _; reflexivity].
Qed.

Lemma getGradeColor_outside_prototype_witness :
  exists c : string,
    ScoreBadge.getGradeColor "a" = ScoreBadge.Text c
    /\ JsString.truthy c = true
    /\ ("a" ∉ ["A"; "B"; "C"; "D"; "F"] -> c = "#6b7280").
Proof.
  apply (getGradeColor_outside_prototype "a").
  apply (bool_decide_unpack ("a" ∉ ScoreBadge.objectPrototype)).
  vm_compute. exact I.
Defined.

Lemma lastWithId_perm (l l' : list PolicyAttribute) (i : string) :
  NoDup (id <$> l) -> l ≡ₚ l' ->
  last (filter (fun a => id a = i) l) = last (filter (fun a => id a = i) l').
Proof.
  intros Hnd Hperm.
  pose proof (NoDup_fmap_filter_length id l i Hnd) as Hlen.
  pose proof (filter_Permutation (fun a => id a = i) l l' Hperm) as Hf.
  destruct (filter (fun a => id a = i) l) as [|a [|b t]].
  - apply Permutation_nil_l in Hf. rewrite <- Hf. reflexivity.
  - apply Permutation_singleton_l in Hf. rewrite <- Hf. reflexivity.
  - cbn in Hlen. lia.
Qed.

(** X13: the order of the attributes in a report does not matter to the
  categorized display: two reports whose attribute lists are permutations
  of each other, with pairwise distinct ids, give the same sections. *)
Theorem categories_order_independent (data data' : AnalyzeResponse) :
  NoDup (id <$> attributes data) ->
  attributes data ≡ₚ attributes data' ->
  categories data' = categories data.
Proof.
  intros Hnd Hperm.
  assert (Hm : attrMap data' = attrMap data).
  { apply map_eq. intros i. rewrite !attrMap_lookup. unfold lastWithId.
    symmetry. apply lastWithId_perm; assumption. }
  unfold categories. rewrite Hm. reflexivity.
Qed.

Lemma categories_order_independent_witness :
  categories Samples.onePerCategoryReversed = categories Samples.onePerCategory.
Proof.
  apply (categories_order_independent Samples.onePerCategory
           Samples.onePerCategoryReversed).
  - apply (bool_decide_unpack
             (NoDup (id <$> attributes Samples.onePerCategory))).
    vm_compute. exact I.
  - cbn. rewrite <- reverse_Permutation. reflexivity.
Defined.

Lemma CategorySection_dots (t i : string) (attrs : list PolicyAttribute) (s : Section_) :
  CategorySection t i attrs = Some s ->
  sec_dots s = (fun r => SeverityDot (severity (row_attr r))) <$> sec_rows s
  /\ length (sec_dots s) = length (sec_rows s).
Proof.
  unfold CategorySection. destruct attrs as [|a l]; cbn; [discriminate|].
  intros [= <-]. cbn. rewrite <- list_fmap_compose, !length_fmap.
  split; reflexivity.
Qed.

(** X14: however many attributes a report has, the display has at most 4
  sections and at most 12 rows in all; and every section has one severity
  dot per row, in the order of the rows, each labelled from the severity of
  its row's attribute. *)
Theorem sections_bounded (data : AnalyzeResponse) :
  (length (categories data) <= 4)%nat
  /\ (length (allRows data) <= 12)%nat
  /\ Forall (fun s =>
               sec_dots s
               = (fun r => SeverityDot (severity (row_attr r))) <$> sec_rows s
               /\ length (sec_dots s) = length (sec_rows s))
            (categories data).
Proof.
  split; [|split].
  - rewrite <- (length_fmap outline). unfold categories.
    rewrite sections_outline.
    etransitivity; [apply length_filter|]. rewrite length_fmap. reflexivity.
  - rewrite <- (length_fmap (fun r => id (row_attr r))), allRows_ids.
    etransitivity; [apply length_filter|]. reflexivity.
  - apply Forall_forall. intros s Hs. unfold categories in Hs.
    apply list_elem_of_omap in Hs as (cat & _ & Hs).
    apply (CategorySection_dots _ _ _ _ Hs).
Qed.

End DisplayFacts.

(** ** The navigation bar *)

Section NavbarFacts.
Import Navbar.

Lemma step_keeps (s : State) (e : Event) :
  frames s = (if ticking s then 1 else 0)%nat ->
  (hidden s = true -> Number.gtb (lastScrollY s) (Number.ofZ 60) = true) ->
  frames (step s e) = (if ticking (step s e) then 1 else 0)%nat
  /\ (hidden (step s e) = true ->
      Number.gtb (lastScrollY (step s e)) (Number.ofZ 60) = true).
Proof.
  intros Hf Hh. destruct e as [|y]; cbn [step].
  - unfold onScroll. destruct (ticking s) eqn:E.
    + rewrite E. split; assumption.
    + cbn. rewrite Hf. split; [reflexivity|exact Hh].
  - destruct (frames s) as [|n] eqn:En.
    + rewrite En. split; assumption.
    + unfold onFrame. cbn [frames ticking hidden lastScrollY]. rewrite En.
      split.
      * destruct (ticking s); [injection Hf as ->; reflexivity|discriminate].
      * destruct (Number.gtb y (Number.ofZ 60)); [reflexivity|discriminate].
Qed.

Lemma run_keeps (events : list Event) (s : State) :
  frames s = (if ticking s then 1 else 0)%nat ->
  (hidden s = true -> Number.gtb (lastScrollY s) (Number.ofZ 60) = true) ->
  frames (run s events) = (if ticking (run s events) then 1 else 0)%nat
  /\ (hidden (run s events) = true ->
      Number.gtb (lastScrollY (run s events)) (Number.ofZ 60) = true).
Proof.
  revert s. induction events as [|e events IH]; intros s Hf Hh.
  - split; assumption.
  - cbn [run fold_left]. destruct (step_keeps s e Hf Hh) as [H1 H2].
    apply IH; assumption.
Qed.

(** X15: whatever scroll events arrive and whenever the browser runs the
  frames, at most one animation-frame callback is outstanding (exactly one
  while [ticking] is set, none otherwise), and the bar is hidden only if
  the scroll position read at the last frame was above 60: it is never
  hidden at the top of the page. *)
Theorem navbar_throttled (events : list Event) :
  (frames (run init events) <= 1)%nat
  /\ (ticking (run init events) = true <-> frames (run init events) = 1%nat)
  /\ (hidden (run init events) = true ->
      Number.gtb (lastScrollY (run init events)) (Number.ofZ 60) = true).
Proof.
  destruct (run_keeps events init) as [Hf Hh]; [reflexivity|discriminate|].
  split; [|split; [|exact Hh]].
  - rewrite Hf. destruct (ticking (run init events)); lia.
  - rewrite Hf. destruct (ticking (run init events)); split; congruence.
Qed.

Lemma gtb_sub_finite (a b : Q) (z : Z) :
  Number.gtb (Number.sub (Number.Finite a) (Number.Finite b)) (Number.ofZ z) = true
  <-> (inject_Z z < a - b)%Q.
Proof.
  unfold Number.gtb, Number.sub, Number.neg, Number.add, Number.fin, Number.ltb,
    Number.ofZ.
  rewrite Qltb_lt, !Qred_correct. reflexivity.
Qed.

Lemma gtb_sub_finite_false (a b : Q) (z : Z) :
  Number.gtb (Number.sub (Number.Finite a) (Number.Finite b)) (Number.ofZ z) = false
  <-> (a - b <= inject_Z z)%Q.
Proof.
  unfold Number.gtb, Number.sub, Number.neg, Number.add, Number.fin, Number.ltb,
    Number.ofZ.
  rewrite Qltb_ge, !Qred_correct. reflexivity.
Qed.

(** X16: what a frame does when the position before was [l] and the
  position read is [y]: the position is recorded and the next scroll event
  may request a frame again; at or below 60 the bar is shown; above 60 it
  is hidden after a move down of more than 8, shown after a move up of more
  than 8, and left as it was after a smaller move. *)
Theorem frame_hysteresis (s : State) (l y : Q) :
  lastScrollY s = Number.Finite l ->
  (0 < frames s)%nat ->
  lastScrollY (step s (Frame (Number.Finite y))) = Number.Finite y
  /\ ticking (step s (Frame (Number.Finite y))) = false
  /\ ((y <= 60)%Q -> hidden (step s (Frame (Number.Finite y))) = false)
  /\ ((60 < y)%Q -> (8 < y - l)%Q ->
      hidden (step s (Frame (Number.Finite y))) = true)
  /\ ((60 < y)%Q -> (8 < l - y)%Q ->
      hidden (step s (Frame (Number.Finite y))) = false)
  /\ ((60 < y)%Q -> (y - l <= 8)%Q -> (l - y <= 8)%Q ->
      hidden (step s (Frame (Number.Finite y))) = hidden s).
Proof.
  intros Hl Hf. cbn [step]. destruct (frames s) as [|n]; [lia|].
  unfold onFrame. cbn [lastScrollY ticking hidden]. rewrite Hl.
  split; [reflexivity|]. split; [reflexivity|].
  assert (H60 : forall b, Number.gtb (Number.Finite y) (Number.ofZ 60) = b ->
                          if b then (60 < y)%Q else (y <= 60)%Q).
  { intros [|] H; unfold Number.gtb, Number.ltb, Number.ofZ in H;
      [apply Qltb_lt in H|apply Qltb_ge in H]; exact H. }
  destruct (Number.gtb (Number.Finite y) (Number.ofZ 60)) eqn:E60;
    specialize (H60 _ eq_refl); cbn in H60.
  - split; [intros H; exfalso; exact (Qlt_not_le _ _ H60 H)|].
    split; [intros _ H; rewrite (proj2 (gtb_sub_finite y l 8) H); reflexivity|].
    split.
    + intros _ H.
      rewrite (proj2 (gtb_sub_finite_false y l 8)),
        (proj2 (gtb_sub_finite l y 8) H); [reflexivity|].
      change (inject_Z 8) with 8%Q. lra.
    + intros _ Hd Hu.
      rewrite (proj2 (gtb_sub_finite_false y l 8) Hd),
        (proj2 (gtb_sub_finite_false l y 8) Hu). reflexivity.
  - split; [reflexivity|].
    repeat split; intros H; exfalso; exact (Qlt_not_le _ _ H H60).
Qed.

Lemma frame_hysteresis_witness :
  lastScrollY (step (onScroll init) (Frame (Number.Finite 100))) = Number.Finite 100
  /\ ticking (step (onScroll init) (Frame (Number.Finite 100))) = false
  /\ ((100 <= 60)%Q -> hidden (step (onScroll init) (Frame (Number.Finite 100))) = false)
  /\ ((60 < 100)%Q -> (8 < 100 - 0)%Q ->
      hidden (step (onScroll init) (Frame (Number.Finite 100))) = true)
  /\ ((60 < 100)%Q -> (8 < 0 - 100)%Q ->
      hidden (step (onScroll init) (Frame (Number.Finite 100))) = false)
  /\ ((60 < 100)%Q -> (100 - 0 <= 8)%Q -> (0 - 100 <= 8)%Q ->
      hidden (step (onScroll init) (Frame (Number.Finite 100)))
      = hidden (onScroll init)).
Proof.
  apply (frame_hysteresis (onScroll init) 0 100); [reflexivity|cbn; lia].
Defined.

End NavbarFacts.

(** ** The progress ring *)

Section RingFacts.
Import ScoreRing.

Lemma circumference_positive :
  exists c : Q, circumference = Number.Finite c /\ (0 < c)%Q.
Proof. eexists. split; [vm_compute; reflexivity|reflexivity]. Qed.

(** X17: the blank part of the ring shrinks in proportion to the score:
  for a finite score it is [circumference * (1 - score / 100)], which is
  the whole circumference at 0, nothing at 100, and between the two for a
  score from 0 to 100; a score that is [NaN] gives [NaN]. *)
Theorem ring_offset (score : Q) :
  exists c o : Q,
    circumference = Number.Finite c /\ (0 < c)%Q
    /\ offset (Number.Finite score) = Number.Finite o
    /\ (o == c * (1 - score / 100))%Q
    /\ ((0 <= score)%Q -> (score <= 100)%Q -> (0 <= o)%Q /\ (o <= c)%Q)
    /\ offset (Number.ofZ 0) = circumference
    /\ offset (Number.ofZ 100) = Number.zero
    /\ offset Number.NaN = Number.NaN.
Proof.
  assert (Hends : offset (Number.ofZ 0) = circumference
                  /\ offset (Number.ofZ 100) = Number.zero
                  /\ offset Number.NaN = Number.NaN)
    by (repeat split; vm_compute; reflexivity).
  destruct circumference_positive as (c & Hc & Hpos).
  exists c, (Qred (c + Qred (- Qred (Qred (score / inject_Z 100) * c)))).
  assert (Ho : (Qred (c + Qred (- Qred (Qred (score / inject_Z 100) * c)))
                == c * (1 - score / 100))%Q).
  { rewrite !Qred_correct. change (inject_Z 100) with 100%Q. field. }
  split; [exact Hc|]. split; [exact Hpos|]. split.
  { unfold offset. rewrite Hc. reflexivity. }
  split; [exact Ho|]. split; [|exact Hends].
  intros H0 H100. rewrite Ho.
  assert (Ht0 : (0 <= score / 100)%Q)
    by (apply Qle_shift_div_l; [reflexivity|lra]).
  assert (Ht1 : (score / 100 <= 1)%Q)
    by (apply Qle_shift_div_r; [reflexivity|lra]).
  split; nra.
Qed.

End RingFacts.
